(** * DataProcessor of src/binance_data_collector.py

    A shallow embedding of the streaming aggregation core: the trade
    buffer, the per-second tallies and the minute-candle computation. *)

From Stdlib Require Import ZArith List Lia Bool String.
From Stdlib Require Import Floats.
From stdpp Require Import base option strings gmap.

Local Open Scope Z_scope.

(** ** Python values that the processor handles *)

(** A number as Python has it at run time: [sum] over no element is the
    integer [0], over floats it is a float. *)
Inductive pynum : Type :=
  | PyInt (z : Z)
  | PyFloat (f : float).

(** Exceptions the modelled code can raise. *)
Inductive pyexn : Type :=
  | ValueError
  | KeyError.

(** The outcome of a call: a value or a raised exception. *)
Inductive result (A : Type) : Type :=
  | Ok (a : A)
  | Raise (e : pyexn).
Arguments Ok {A} a.
Arguments Raise {A} e.

Definition bind {A B : Type} (m : result A) (k : A -> result B) : result B :=
  match m with
  | Ok a => k a
  | Raise e => Raise e
  end.

Notation "'let!' x ':=' m 'in' k" := (bind m (fun x => k))
  (at level 10, x name, m at level 100, k at level 200).

(** [int -> float] conversion of the integers a volume sum starts from. *)
Definition float_of_Z (z : Z) : float :=
  SF2Prim (binary_normalize prec emax z 0 false).

(** Python's [a + b] on numbers. *)
Definition py_add (a b : pynum) : pynum :=
  match a, b with
  | PyInt x, PyInt y => PyInt (x + y)
  | PyInt x, PyFloat g => PyFloat (float_of_Z x + g)
  | PyFloat f, PyInt y => PyFloat (f + float_of_Z y)
  | PyFloat f, PyFloat g => PyFloat (f + g)
  end.

(** Python's builtin [sum]: starts from the integer 0 and adds from the
    left. *)
Definition py_sum (l : list pynum) : pynum :=
  fold_left py_add l (PyInt 0).

(** [range(a, b)]. *)
Definition py_range (a b : Z) : list Z :=
  map (fun i => a + Z.of_nat i) (seq 0 (Z.to_nat (b - a))).

(** ** Data classes *)

Record TradeData : Type := mkTradeData {
  timestamp : Z;
  price : float;
  quantity : float;
  is_buyer_maker : bool;
  trade_id : Z
}.

Record CandleData : Type := mkCandleData {
  c_timestamp : Z;
  open_price : float;
  high_price : float;
  low_price : float;
  close_price : float;
  volume : float;
  num_buyers : Z;
  num_sellers : Z;
  buyers_volume : pynum;
  sellers_volume : pynum;
  power_position : Z;
  max_buyers_per_second : Z;
  max_sellers_per_second : Z
}.

(** The upstream kline payload ([stream_data['k']]): the closed flag
    ['x'] may be absent, the times ['t'] and ['T'] are JSON integers and
    the OHLCV fields are strings. *)
Record kline_data : Type := mkKline {
  k_x : option bool;
  k_t : Z;
  k_T : Z;
  k_o : string;
  k_h : string;
  k_l : string;
  k_c : string;
  k_v : string
}.

(** ** Dictionaries *)

(** The inner dictionary of one second, [{'buyers': n, 'sellers': m}]. *)
Abbreviation counts := (gmap string Z).

(** The value the [defaultdict] factory
    [lambda: {'buyers': 0, 'sellers': 0}] builds. *)
Definition default_factory : counts :=
  <["sellers" := 0]> (<["buyers" := 0]> ∅).

(** [d[k]] on the [defaultdict]: a missing key is inserted with the
    factory's value, also when the access only reads. *)
Definition defaultdict_getitem (d : gmap Z counts) (k : Z)
  : counts * gmap Z counts :=
  match d !! k with
  | Some v => (v, d)
  | None => (default_factory, <[k := default_factory]> d)
  end.

(** [c[key]] on a plain dictionary. *)
Definition dict_getitem (c : counts) (key : string) : result Z :=
  match c !! key with
  | Some v => Ok v
  | None => Raise KeyError
  end.

(** [del d[k]]. *)
Definition dict_delitem (d : gmap Z counts) (k : Z) : result (gmap Z counts) :=
  match d !! k with
  | Some _ => Ok (delete k d)
  | None => Raise KeyError
  end.

(** [list(d.keys())]. *)
Definition dict_keys (d : gmap Z counts) : list Z :=
  (map_to_list d).*1.

(** A [for] loop whose body may raise. *)
Fixpoint for_each {A B : Type} (body : A -> B -> result A) (l : list B) (a : A)
  : result A :=
  match l with
  | [] => Ok a
  | x :: l' => let! a' := body a x in for_each body l' a'
  end.

(** ** DataProcessor *)

Record DataProcessor : Type := mkDataProcessor {
  trades_buffer : list TradeData;
  second_trade_counts : gmap Z counts;
  current_minute_start : option Z
}.

(** [DataProcessor.__init__]. *)
Definition init : DataProcessor :=
  {| trades_buffer := [];
     second_trade_counts := ∅;
     current_minute_start := None |}.

(** The counter a trade is tallied under (lines 91-94). *)
Definition side_key (trade : TradeData) : string :=
  if is_buyer_maker trade then "sellers" else "buyers".

(** [DataProcessor.add_trade] (lines 86-94). *)
Definition add_trade (self : DataProcessor) (trade : TradeData)
  : result DataProcessor :=
  let buffer := trades_buffer self ++ [trade] in
  let second_timestamp := timestamp trade / 1000 in
  let '(inner, d) :=
    defaultdict_getitem (second_trade_counts self) second_timestamp in
  let! n := dict_getitem inner (side_key trade) in
  Ok {| trades_buffer := buffer;
        second_trade_counts :=
          <[second_timestamp := <[side_key trade := n + 1]> inner]> d;
        current_minute_start := current_minute_start self |}.

(** The comprehension of lines 104-107. *)
Definition minute_trades (buffer : list TradeData) (open_time close_time : Z)
  : list TradeData :=
  List.filter
    (fun trade => (open_time <=? timestamp trade)
                  && (timestamp trade <=? close_time))
    buffer.

(** [sum(1 for trade in minute_trades if cond)]. *)
Definition count_if (cond : TradeData -> bool) (l : list TradeData) : Z :=
  fold_left Z.add (map (fun _ => 1) (List.filter cond l)) 0.

(** [sum(trade.quantity for trade in minute_trades if cond)]. *)
Definition volume_if (cond : TradeData -> bool) (l : list TradeData) : pynum :=
  py_sum (map (fun trade => PyFloat (quantity trade)) (List.filter cond l)).

(** Lines 122-128. *)
Definition power_of (num_buyers num_sellers : Z) : Z :=
  if num_sellers <? num_buyers then 1
  else if num_buyers <? num_sellers then -1
  else 0.

(** The body of the loop of lines 136-140; both subscripts go through the
    [defaultdict]. *)
Definition max_step (acc : gmap Z counts * Z * Z) (second : Z)
  : result (gmap Z counts * Z * Z) :=
  let '(d, max_buyers, max_sellers) := acc in
  let '(inner_b, d1) := defaultdict_getitem d second in
  let! buyers_count := dict_getitem inner_b "buyers" in
  let '(inner_s, d2) := defaultdict_getitem d1 second in
  let! sellers_count := dict_getitem inner_s "sellers" in
  Ok (d2, Z.max max_buyers buyers_count, Z.max max_sellers sellers_count).

(** Lines 131-140: the maxima over [range(start_second, end_second + 1)],
    with the dictionary the reads leave behind. *)
Definition max_per_second (d : gmap Z counts) (start_second end_second : Z)
  : result (gmap Z counts * Z * Z) :=
  for_each max_step (py_range start_second (end_second + 1)) (d, 0, 0).

(** Lines 164-167: the body deletes the seconds before the cutoff. *)
Definition clean_step (cutoff_second : Z) (d : gmap Z counts) (second : Z)
  : result (gmap Z counts) :=
  if second <? cutoff_second then dict_delitem d second else Ok d.

(** Lines 159-167: trades at or before the cutoff and tallies of seconds
    before the cutoff second are dropped. *)
Definition clean_up (buffer : list TradeData) (d : gmap Z counts)
  (cutoff_time : Z) : result (list TradeData * gmap Z counts) :=
  let buffer' := List.filter (fun trade => cutoff_time <? timestamp trade) buffer in
  let cutoff_second := cutoff_time / 1000 in
  let! d' := for_each (clean_step cutoff_second) (dict_keys d) d in
  Ok (buffer', d').

Section Processor.

(** Python's builtin [float] on a string; [None] stands for the
    [ValueError] it raises on a string that is no number. *)
Variable py_float : string -> option float.

Definition float_of_str (s : string) : result float :=
  match py_float s with
  | Some f => Ok f
  | None => Raise ValueError
  end.

(** [DataProcessor.process_minute_candle] (lines 96-169): the returned
    value and the processor as the call leaves it. *)
Definition process_minute_candle (self : DataProcessor) (kline : kline_data)
  : result (option CandleData * DataProcessor) :=
  if negb (default false (k_x kline)) then Ok (None, self)
  else
    let open_time := k_t kline in
    let close_time := k_T kline in
    let trades := minute_trades (trades_buffer self) open_time close_time in
    let '(num_buyers, num_sellers, buyers_volume, sellers_volume) :=
      match trades with
      | [] => (0, 0, PyFloat 0%float, PyFloat 0%float)
      | _ :: _ =>
          (count_if (fun trade => negb (is_buyer_maker trade)) trades,
           count_if (fun trade => is_buyer_maker trade) trades,
           volume_if (fun trade => negb (is_buyer_maker trade)) trades,
           volume_if (fun trade => is_buyer_maker trade) trades)
      end in
    let power_position := power_of num_buyers num_sellers in
    let start_second := open_time / 1000 in
    let end_second := close_time / 1000 in
    let! scanned :=
      max_per_second (second_trade_counts self) start_second end_second in
    let '(d, max_buyers_per_second, max_sellers_per_second) := scanned in
    let! o := float_of_str (k_o kline) in
    let! h := float_of_str (k_h kline) in
    let! l := float_of_str (k_l kline) in
    let! c := float_of_str (k_c kline) in
    let! v := float_of_str (k_v kline) in
    let candle :=
      {| c_timestamp := open_time;
         open_price := o;
         high_price := h;
         low_price := l;
         close_price := c;
         volume := v;
         num_buyers := num_buyers;
         num_sellers := num_sellers;
         buyers_volume := buyers_volume;
         sellers_volume := sellers_volume;
         power_position := power_position;
         max_buyers_per_second := max_buyers_per_second;
         max_sellers_per_second := max_sellers_per_second |} in
    let cutoff_time := close_time - 2 * 60 * 1000 in
    let! cleaned := clean_up (trades_buffer self) d cutoff_time in
    let '(buffer', d') := cleaned in
    Ok (Some candle,
        {| trades_buffer := buffer';
           second_trade_counts := d';
           current_minute_start := current_minute_start self |}).

(** The processors a run can be in: the fresh one, and those left by a
    call that returned. *)
Inductive reachable : DataProcessor -> Prop :=
  | reach_init : reachable init
  | reach_trade self trade self' :
      reachable self -> add_trade self trade = Ok self' -> reachable self'
  | reach_kline self kline r self' :
      reachable self -> process_minute_candle self kline = Ok (r, self') ->
      reachable self'.

(** A bucket summary whose OHLCV strings are numbers. *)
Definition kline_ok (kline : kline_data) : Prop :=
  is_Some (py_float (k_o kline)) /\ is_Some (py_float (k_h kline)) /\
  is_Some (py_float (k_l kline)) /\ is_Some (py_float (k_c kline)) /\
  is_Some (py_float (k_v kline)).

End Processor.

(** ** Vocabulary of the statements *)

(** Every inner dictionary has the two counters. *)
Definition counts_ok (d : gmap Z counts) : Prop :=
  forall k c, d !! k = Some c -> is_Some (c !! "buyers") /\ is_Some (c !! "sellers").

(** The count a second stands for: zero when the second or the counter is
    not recorded. *)
Definition tally_of (d : gmap Z counts) (second : Z) (key : string) : Z :=
  match d !! second with
  | Some c => default 0 (c !! key)
  | None => 0
  end.

(** The dictionary after [d[second]] was evaluated. *)
Definition touch (d : gmap Z counts) (second : Z) : gmap Z counts :=
  snd (defaultdict_getitem d second).

(** The largest count of one side over a list of seconds, at least 0. *)
Definition max_of (d : gmap Z counts) (key : string) (l : list Z) (m0 : Z) : Z :=
  fold_left (fun m second => Z.max m (tally_of d second key)) l m0.

(** The tallies of the seconds from [cutoff_second] on. *)
Definition evict (d : gmap Z counts) (cutoff_second : Z) : gmap Z counts :=
  filter (fun kv : Z * counts => cutoff_second <= kv.1) d.

(** The buyer-initiated and the seller-initiated trades of a list. *)
Definition is_buy (trade : TradeData) : bool := negb (is_buyer_maker trade).
Definition is_sell (trade : TradeData) : bool := is_buyer_maker trade.

(** The volume of one side as lines 109-120 compute it: the float [0.0]
    when no trade matched, the [sum] over the side otherwise. *)
Definition side_volume (cond : TradeData -> bool) (trades : list TradeData)
  : pynum :=
  match trades with
  | [] => PyFloat 0%float
  | _ :: _ => volume_if cond trades
  end.

(** The seconds the scan of a bucket reads. *)
Definition seconds_of (kline : kline_data) : list Z :=
  py_range (k_t kline / 1000) (k_T kline / 1000 + 1).

(** The cutoff of the clean-up of a bucket. *)
Definition cutoff_of (kline : kline_data) : Z :=
  k_T kline - 2 * 60 * 1000.

(** The candle of a closed bucket, in closed form. *)
Definition candle_of (o h l c v : float) (self : DataProcessor)
  (kline : kline_data) : CandleData :=
  let trades := minute_trades (trades_buffer self) (k_t kline) (k_T kline) in
  {| c_timestamp := k_t kline;
     open_price := o;
     high_price := h;
     low_price := l;
     close_price := c;
     volume := v;
     num_buyers := count_if is_buy trades;
     num_sellers := count_if is_sell trades;
     buyers_volume := side_volume is_buy trades;
     sellers_volume := side_volume is_sell trades;
     power_position :=
       power_of (count_if is_buy trades) (count_if is_sell trades);
     max_buyers_per_second :=
       max_of (second_trade_counts self) "buyers" (seconds_of kline) 0;
     max_sellers_per_second :=
       max_of (second_trade_counts self) "sellers" (seconds_of kline) 0 |}.

(** The processor a closed bucket leaves, in closed form. *)
Definition after_close (self : DataProcessor) (kline : kline_data)
  : DataProcessor :=
  {| trades_buffer :=
       List.filter (fun trade => cutoff_of kline <? timestamp trade)
         (trades_buffer self);
     second_trade_counts :=
       evict (fold_left touch (seconds_of kline) (second_trade_counts self))
         (cutoff_of kline / 1000);
     current_minute_start := current_minute_start self |}.

(** The quantities of a list of trades, as the [sum] generators yield
    them. *)
Definition quantities (trades : list TradeData) : list pynum :=
  map (fun trade => PyFloat (quantity trade)) trades.

(** Whether a trade is tallied under the counter [key] of [second]. *)
Definition tallied_at (second : Z) (key : string) (trade : TradeData) : bool :=
  (timestamp trade / 1000 =? second) && String.eqb (side_key trade) key.

(** The number of trades of a list that are tallied under the counter
    [key] of [second]. *)
Definition count_in (l : list TradeData) (second : Z) (key : string) : Z :=
  Z.of_nat (length (List.filter (tallied_at second key) l)).

(** [m] is the largest count of the counter [key] over the seconds
    [first .. last], or 0 when no count there is positive. *)
Definition largest_count (d : gmap Z counts) (key : string) (first last m : Z)
  : Prop :=
  0 <= m /\
  (forall second, first <= second <= last -> tally_of d second key <= m) /\
  (m = 0 \/ exists second, first <= second <= last /\ m = tally_of d second key).

(** ** BinanceDataCollector: reconnecting *)

(** The two entries of the configuration that reconnecting reads. *)
Record Config : Type := mkConfig {
  reconnect_interval : Z;
  max_reconnect_attempts : Z
}.

(** The fields of the collector that reconnecting reads and writes. *)
Record Collector : Type := mkCollector {
  running : bool;
  reconnect_attempts : Z
}.

(** [BinanceDataCollector._handle_reconnection] (lines 402-413): the
    collector it leaves and the seconds it sleeps, if it sleeps.
    [reconnect_attempts] starts at 0 and is only reset to 0 or incremented,
    so the exponent is not negative and the power is an integer. *)
Definition handle_reconnection (config : Config) (self : Collector)
  : Collector * option Z :=
  if negb (running self) then (self, None)
  else
    let attempts := reconnect_attempts self + 1 in
    if max_reconnect_attempts config <? attempts then
      ({| running := false; reconnect_attempts := attempts |}, None)
    else
      let wait_time :=
        Z.min (reconnect_interval config * 2 ^ (attempts - 1)) 300 in
      ({| running := true; reconnect_attempts := attempts |}, Some wait_time).

(** What one turn of the loop of [_websocket_handler] meets: the connection
    is refused, or it is established and then lost with an exception, or it
    is established and its stream of messages ends. *)
Inductive attempt : Type :=
  | Refused
  | Lost
  | Ended.

(** [BinanceDataCollector._websocket_handler] (lines 384-400) along a list
    of such turns, the handling of the messages and the signals left out:
    the collector at the end and the seconds slept, in order. *)
Fixpoint websocket_handler (config : Config) (turns : list attempt)
  (self : Collector) : Collector * list Z :=
  match turns with
  | [] => (self, [])
  | turn :: rest =>
      if negb (running self) then (self, [])
      else
        let connected := {| running := running self; reconnect_attempts := 0 |} in
        match turn with
        | Ended => websocket_handler config rest connected
        | Refused | Lost =>
            let before :=
              match turn with Refused => self | _ => connected end in
            let '(after, slept) := handle_reconnection config before in
            let '(final, sleeps) := websocket_handler config rest after in
            (final, match slept with Some w => w :: sleeps | None => sleeps end)
        end
  end.

(** The collector as [__init__] and [run] leave it before the loop. *)
Definition started : Collector :=
  {| running := true; reconnect_attempts := 0 |}.

(** The values of src/config.py. *)
Definition CONFIG : Config :=
  {| reconnect_interval := 5; max_reconnect_attempts := 10 |}.

(** ** Sample inputs *)

(** The builtin [float] on a few strings. *)
Definition py_float_sample (s : string) : option float :=
  if String.eqb s "0.5" then Some 0x1p-1%float
  else if String.eqb s "1.0" then Some 0x1p+0%float
  else if String.eqb s "2.5" then Some 0x1.4p+1%float
  else None.

(** [float('0.1')], [float('0.2')], [float('0.4')], [float('0.7')] and the
    float after it, which prints as 0.7000000000000001. *)
Definition f_0_1 : float := 0x1.999999999999ap-4%float.
Definition f_0_2 : float := 0x1.999999999999ap-3%float.
Definition f_0_4 : float := 0x1.999999999999ap-2%float.
Definition f_0_7 : float := 0x1.6666666666666p-1%float.
Definition f_0_7_up : float := 0x1.6666666666667p-1%float.

(** Three trades of one bucket: a buy of 0.1, a sell of 0.2, a buy of
    0.4. *)
Definition sample_trades : list TradeData :=
  [ {| timestamp := 1000; price := 0x1p+0%float; quantity := f_0_1;
       is_buyer_maker := false; trade_id := 1 |};
    {| timestamp := 1500; price := 0x1p+0%float; quantity := f_0_2;
       is_buyer_maker := true; trade_id := 2 |};
    {| timestamp := 2999; price := 0x1p+0%float; quantity := f_0_4;
       is_buyer_maker := false; trade_id := 3 |} ].

(** A closed bucket summary over [open_time, close_time]. *)
Definition sample_kline (closed : bool) (open_time close_time : Z) : kline_data :=
  {| k_x := Some closed; k_t := open_time; k_T := close_time;
     k_o := "1.0"; k_h := "2.5"; k_l := "0.5"; k_c := "1.0"; k_v := "2.5" |}.

(** The processor after the three sample trades were added to a fresh
    one. *)
Definition sample_processor : DataProcessor :=
  match for_each add_trade sample_trades init with
  | Ok self => self
  | Raise _ => init
  end.

(** The candle of the closed sample bucket [0, 3000] on the sample
    processor, and the processor that is left. *)
Definition sample_candle : CandleData :=
  candle_of 0x1p+0%float 0x1.4p+1%float 0x1p-1%float 0x1p+0%float 0x1.4p+1%float
    sample_processor (sample_kline true 0 3000).
Definition sample_after : DataProcessor :=
  after_close sample_processor (sample_kline true 0 3000).

(** Five trades for a bucket closed two minutes later: the three sample
    trades, a buy in the second 59 and a sell at 150000. *)
Definition eviction_trades : list TradeData :=
  sample_trades ++
  [ {| timestamp := 59500; price := 0x1p+0%float; quantity := f_0_1;
       is_buyer_maker := false; trade_id := 4 |};
    {| timestamp := 150000; price := 0x1p+0%float; quantity := f_0_2;
       is_buyer_maker := true; trade_id := 5 |} ].

(** The processor after these five trades were added to a fresh one. *)
Definition eviction_processor : DataProcessor :=
  match for_each add_trade eviction_trades init with
  | Ok self => self
  | Raise _ => init
  end.

(** The closed bucket [120000, 179999], whose cutoff is 59999, with its
    candle on that processor and the processor that is left. *)
Definition eviction_kline : kline_data := sample_kline true 120000 179999.
Definition eviction_candle : CandleData :=
  candle_of 0x1p+0%float 0x1.4p+1%float 0x1p-1%float 0x1p+0%float 0x1.4p+1%float
    eviction_processor eviction_kline.
Definition eviction_after : DataProcessor :=
  after_close eviction_processor eviction_kline.

(** ** The dictionary operations *)

Lemma default_factory_buyers : default_factory !! "buyers" = Some 0.
Proof. reflexivity. Qed.

Lemma default_factory_sellers : default_factory !! "sellers" = Some 0.
Proof. reflexivity. Qed.

Lemma default_factory_zero key : default 0 (default_factory !! key) = 0.
Proof.
  unfold default_factory.
  destruct (decide (key = "sellers")) as [->|Hs]; [reflexivity|].
  rewrite lookup_insert_ne by congruence.
  destruct (decide (key = "buyers")) as [->|Hb]; [reflexivity|].
  rewrite lookup_insert_ne by congruence.
  reflexivity.
Qed.

Lemma touch_lookup d second k :
  touch d second !! k =
    match d !! k with
    | Some c => Some c
    | None => if decide (k = second) then Some default_factory else None
    end.
Proof.
  unfold touch, defaultdict_getitem.
  destruct (d !! second) as [c|] eqn:E; simpl.
  - destruct (d !! k) eqn:Ek; [reflexivity|].
    destruct (decide (k = second)); [congruence|reflexivity].
  - destruct (decide (k = second)) as [->|Hne].
    + rewrite lookup_insert_eq, E. reflexivity.
    + rewrite lookup_insert_ne by congruence. destruct (d !! k); reflexivity.
Qed.

Lemma tally_of_touch d second k key :
  tally_of (touch d second) k key = tally_of d k key.
Proof.
  unfold tally_of. rewrite touch_lookup.
  destruct (d !! k); [reflexivity|].
  destruct (decide (k = second)); [apply default_factory_zero|reflexivity].
Qed.

Lemma counts_ok_touch d second : counts_ok d -> counts_ok (touch d second).
Proof.
  intros Hd k c. rewrite touch_lookup.
  destruct (d !! k) as [c'|] eqn:E.
  - intros [= <-]. eapply Hd; eassumption.
  - destruct (decide (k = second)); [|discriminate].
    intros [= <-]. split; eexists; reflexivity.
Qed.

Lemma counts_ok_empty : counts_ok ∅.
Proof. intros k c. rewrite lookup_empty. discriminate. Qed.

Lemma defaultdict_getitem_fst d second :
  fst (defaultdict_getitem d second) =
    match d !! second with Some c => c | None => default_factory end.
Proof. unfold defaultdict_getitem. destruct (d !! second); reflexivity. Qed.

Lemma defaultdict_getitem_lookup d second :
  touch d second !! second = Some (fst (defaultdict_getitem d second)).
Proof.
  unfold touch, defaultdict_getitem.
  destruct (d !! second) eqn:E; simpl; [assumption|apply lookup_insert_eq].
Qed.

Lemma touch_idem d second : touch (touch d second) second = touch d second.
Proof.
  unfold touch at 1. unfold defaultdict_getitem.
  rewrite defaultdict_getitem_lookup. reflexivity.
Qed.

(** ** The scan of the seconds of a bucket *)

Lemma dict_getitem_ok (c : counts) key :
  is_Some (c !! key) -> dict_getitem c key = Ok (default 0 (c !! key)).
Proof. intros [v Hv]. unfold dict_getitem. rewrite Hv. reflexivity. Qed.

Lemma max_step_ok d mb ms second :
  counts_ok d ->
  max_step (d, mb, ms) second =
    Ok (touch d second,
        Z.max mb (tally_of d second "buyers"),
        Z.max ms (tally_of d second "sellers")).
Proof.
  intros Hd. unfold max_step, touch, tally_of, defaultdict_getitem.
  destruct (d !! second) as [c|] eqn:E.
  - destruct (Hd _ _ E) as [Hb Hs].
    rewrite (dict_getitem_ok _ _ Hb). simpl bind. rewrite E.
    rewrite (dict_getitem_ok _ _ Hs). reflexivity.
  - rewrite (dict_getitem_ok default_factory "buyers") by (eexists; reflexivity).
    simpl bind. rewrite lookup_insert_eq.
    rewrite (dict_getitem_ok default_factory "sellers") by (eexists; reflexivity).
    reflexivity.
Qed.

Lemma max_of_touch d second key l : forall m,
  max_of (touch d second) key l m = max_of d key l m.
Proof.
  unfold max_of. induction l as [|x l IH]; intros m; simpl; [reflexivity|].
  rewrite tally_of_touch. apply IH.
Qed.

(** The loop returns the maxima of the recorded counts, and the
    dictionary after every second of the list was read. *)
Lemma for_each_max_step l : forall d mb ms,
  counts_ok d ->
  for_each max_step l (d, mb, ms) =
    Ok (fold_left touch l d, max_of d "buyers" l mb, max_of d "sellers" l ms).
Proof.
  induction l as [|second l IH]; intros d mb ms Hd; cbn [for_each].
  - reflexivity.
  - rewrite max_step_ok by assumption. cbn [bind].
    rewrite IH by (apply counts_ok_touch; assumption).
    rewrite !max_of_touch. reflexivity.
Qed.

Lemma max_per_second_ok d start_second end_second :
  counts_ok d ->
  max_per_second d start_second end_second =
    Ok (fold_left touch (py_range start_second (end_second + 1)) d,
        max_of d "buyers" (py_range start_second (end_second + 1)) 0,
        max_of d "sellers" (py_range start_second (end_second + 1)) 0).
Proof. intros Hd. apply for_each_max_step. assumption. Qed.

Lemma fold_touch_lookup l : forall d k,
  fold_left touch l d !! k =
    match d !! k with
    | Some c => Some c
    | None => if decide (k ∈ l) then Some default_factory else None
    end.
Proof.
  induction l as [|second l IH]; intros d k; simpl.
  - destruct (d !! k); [reflexivity|].
    destruct (decide (k ∈ [])) as [H|]; [|reflexivity].
    apply elem_of_nil in H. contradiction.
  - rewrite IH, touch_lookup.
    destruct (d !! k); [reflexivity|].
    destruct (decide (k = second)) as [->|Hne].
    + destruct (decide (second ∈ second :: l)) as [|H]; [reflexivity|].
      exfalso. apply H. left.
    + destruct (decide (k ∈ l)) as [Hin|Hin];
        destruct (decide (k ∈ second :: l)) as [Hin'|Hin']; try reflexivity.
      * exfalso. apply Hin'. right. assumption.
      * exfalso. apply elem_of_cons in Hin' as [?|?]; contradiction.
Qed.

Lemma counts_ok_fold_touch l : forall d,
  counts_ok d -> counts_ok (fold_left touch l d).
Proof.
  induction l as [|second l IH]; intros d Hd; simpl; [assumption|].
  apply IH, counts_ok_touch, Hd.
Qed.

Lemma tally_of_fold_touch l d k key :
  tally_of (fold_left touch l d) k key = tally_of d k key.
Proof.
  revert d. induction l as [|second l IH]; intros d; simpl; [reflexivity|].
  rewrite IH. apply tally_of_touch.
Qed.

Lemma elem_of_py_range a b k : k ∈ py_range a b <-> a <= k < b.
Proof.
  unfold py_range. rewrite list_elem_of_In, in_map_iff. split.
  - intros (i & <- & Hi). apply in_seq in Hi. lia.
  - intros H. exists (Z.to_nat (k - a)). split; [lia|].
    apply in_seq. lia.
Qed.

(** ** The clean-up *)

Lemma elem_of_dict_keys (d : gmap Z counts) k : k ∈ dict_keys d <-> is_Some (d !! k).
Proof.
  unfold dict_keys. rewrite list_elem_of_fmap. split.
  - intros ([k' c] & -> & Hin). apply elem_of_map_to_list in Hin.
    eexists; eassumption.
  - intros [c Hc]. exists (k, c). split; [reflexivity|].
    apply elem_of_map_to_list. assumption.
Qed.

Ltac keys_cases :=
  repeat case_decide; try reflexivity; exfalso;
  repeat match goal with
    | H : context [_ ∈ _ :: _] |- _ => rewrite elem_of_cons in H
    end;
  intuition (subst; try lia; try contradiction).

(** The deleting loop never meets a missing key: the keys come from a
    snapshot without duplicates. *)
Lemma for_each_clean_step cutoff_second l : forall d : gmap Z counts,
  NoDup l -> (forall k, k ∈ l -> is_Some (d !! k)) ->
  exists d',
    for_each (clean_step cutoff_second) l d = Ok d' /\
    forall k, d' !! k =
      if decide (k ∈ l /\ k < cutoff_second) then None else d !! k.
Proof.
  induction l as [|second l IH]; intros d Hnd Hin; cbn [for_each].
  - exists d. split; [reflexivity|]. intros k.
    destruct (decide _) as [[H _]|]; [|reflexivity].
    apply elem_of_nil in H. contradiction.
  - apply NoDup_cons in Hnd as [Hnotin Hnd].
    unfold clean_step at 1. destruct (second <? cutoff_second) eqn:Hlt.
    + apply Z.ltb_lt in Hlt.
      unfold dict_delitem.
      destruct (Hin second) as [c Hc]; [left|]. rewrite Hc. cbn [bind].
      destruct (IH (delete second d) Hnd) as (d' & Hd' & Hl).
      { intros k Hk. rewrite lookup_delete_ne; [apply Hin; right; assumption|].
        intros ->. contradiction. }
      exists d'. split; [assumption|]. intros k. rewrite Hl.
      destruct (decide (k = second)) as [->|Hne].
      * rewrite lookup_delete_eq.
        clear IH Hin. keys_cases.
      * rewrite lookup_delete_ne by congruence.
        clear IH Hin. keys_cases.
    + apply Z.ltb_ge in Hlt. cbn [bind].
      destruct (IH d Hnd) as (d' & Hd' & Hl).
      { intros k Hk. apply Hin. right. assumption. }
      exists d'. split; [assumption|]. intros k. rewrite Hl.
      clear IH Hin. keys_cases.
Qed.

Lemma evict_lookup d cutoff_second k :
  evict d cutoff_second !! k = if decide (k < cutoff_second) then None else d !! k.
Proof.
  unfold evict. rewrite map_lookup_filter.
  destruct (d !! k) as [c|]; simpl.
  - destruct (decide (k < cutoff_second)).
    + rewrite option_guard_False by (simpl; lia). reflexivity.
    + rewrite option_guard_True by (simpl; lia). reflexivity.
  - destruct (decide _); reflexivity.
Qed.

Lemma clean_up_ok buffer d cutoff_time :
  clean_up buffer d cutoff_time =
    Ok (List.filter (fun trade => cutoff_time <? timestamp trade) buffer,
        evict d (cutoff_time / 1000)).
Proof.
  unfold clean_up.
  destruct (for_each_clean_step (cutoff_time / 1000) (dict_keys d) d)
    as (d' & -> & Hl).
  - apply NoDup_fst_map_to_list.
  - intros k. apply elem_of_dict_keys.
  - cbn [bind]. do 2 f_equal. apply map_eq. intros k.
    rewrite Hl, evict_lookup.
    destruct (decide (k ∈ dict_keys d /\ _)) as [[H1 H2]|H];
      destruct (decide (k < _)) as [H3|H3]; try reflexivity; try lia.
    destruct (d !! k) eqn:E; [|reflexivity].
    exfalso. apply H. split; [|assumption].
    apply elem_of_dict_keys. eexists; eassumption.
Qed.

Lemma counts_ok_evict d cutoff_second : counts_ok d -> counts_ok (evict d cutoff_second).
Proof.
  intros Hd k c. rewrite evict_lookup.
  destruct (decide _); [discriminate|]. apply Hd.
Qed.

(** ** add_trade and process_minute_candle in closed form *)

Lemma add_trade_ok self trade :
  counts_ok (second_trade_counts self) ->
  let second := timestamp trade / 1000 in
  let d := second_trade_counts self in
  add_trade self trade =
    Ok {| trades_buffer := trades_buffer self ++ [trade];
          second_trade_counts :=
            <[second := <[side_key trade := tally_of d second (side_key trade) + 1]>
                          (fst (defaultdict_getitem d second))]> (touch d second);
          current_minute_start := current_minute_start self |}.
Proof.
  intros Hd second d. unfold add_trade. fold second. fold d.
  pose proof (defaultdict_getitem_lookup d second) as Hl.
  destruct (counts_ok_touch d second Hd _ _ Hl) as [Hb Hs].
  assert (is_Some ((defaultdict_getitem d second).1 !! side_key trade)) as Hk.
  { unfold side_key. destruct (is_buyer_maker trade); assumption. }
  assert (default 0 ((defaultdict_getitem d second).1 !! side_key trade)
          = tally_of d second (side_key trade)) as Ht.
  { rewrite <- (tally_of_touch d second second). unfold tally_of.
    rewrite Hl. reflexivity. }
  unfold touch. destruct (defaultdict_getitem d second) as [inner d1].
  simpl in *. rewrite (dict_getitem_ok _ _ Hk), Ht. reflexivity.
Qed.

Section ProcessorFacts.

Variable py_float : string -> option float.

Lemma float_of_str_Some s f :
  py_float s = Some f -> float_of_str py_float s = Ok f.
Proof. intros H. unfold float_of_str. rewrite H. reflexivity. Qed.

Lemma process_open self kline :
  default false (k_x kline) = false ->
  process_minute_candle py_float self kline = Ok (None, self).
Proof. intros H. unfold process_minute_candle. rewrite H. reflexivity. Qed.

Lemma process_closed self kline o h l c v :
  default false (k_x kline) = true ->
  counts_ok (second_trade_counts self) ->
  py_float (k_o kline) = Some o -> py_float (k_h kline) = Some h ->
  py_float (k_l kline) = Some l -> py_float (k_c kline) = Some c ->
  py_float (k_v kline) = Some v ->
  process_minute_candle py_float self kline =
    Ok (Some (candle_of o h l c v self kline), after_close self kline).
Proof.
  intros Hx Hd Ho Hh Hl Hc Hv. unfold process_minute_candle.
  rewrite Hx. cbn [negb].
  rewrite max_per_second_ok by assumption. cbn [bind].
  rewrite (float_of_str_Some _ _ Ho), (float_of_str_Some _ _ Hh),
    (float_of_str_Some _ _ Hl), (float_of_str_Some _ _ Hc),
    (float_of_str_Some _ _ Hv). cbn [bind].
  rewrite clean_up_ok. cbn [bind].
  unfold candle_of, after_close, side_volume, seconds_of, cutoff_of.
  destruct (minute_trades (trades_buffer self) (k_t kline) (k_T kline));
    reflexivity.
Qed.

(** Whatever a call on a well-formed dictionary returns, it is one of the
    two closed forms. *)
Lemma process_inv self kline r self' :
  counts_ok (second_trade_counts self) ->
  process_minute_candle py_float self kline = Ok (r, self') ->
  (default false (k_x kline) = false /\ r = None /\ self' = self) \/
  (default false (k_x kline) = true /\ self' = after_close self kline /\
   exists o h l c v, r = Some (candle_of o h l c v self kline)).
Proof.
  intros Hd H. destruct (default false (k_x kline)) eqn:Hx.
  - right. split; [reflexivity|].
    destruct (py_float (k_o kline)) as [o|] eqn:Ho;
    [destruct (py_float (k_h kline)) as [h|] eqn:Hh;
     [destruct (py_float (k_l kline)) as [l|] eqn:Hl;
      [destruct (py_float (k_c kline)) as [c|] eqn:Hc;
       [destruct (py_float (k_v kline)) as [v|] eqn:Hv|]|]|]|].
    + rewrite (process_closed _ _ o h l c v) in H by assumption.
      injection H as <- <-. split; [reflexivity|]. do 5 eexists. reflexivity.
    + exfalso. revert H. unfold process_minute_candle, float_of_str.
      rewrite Hx, max_per_second_ok, Ho, Hh, Hl, Hc, Hv by assumption.
      cbn [bind negb].
      destruct (minute_trades _ _ _); discriminate.
    + exfalso. revert H. unfold process_minute_candle, float_of_str.
      rewrite Hx, max_per_second_ok, Ho, Hh, Hl, Hc by assumption.
      cbn [bind negb].
      destruct (minute_trades _ _ _); discriminate.
    + exfalso. revert H. unfold process_minute_candle, float_of_str.
      rewrite Hx, max_per_second_ok, Ho, Hh, Hl by assumption.
      cbn [bind negb].
      destruct (minute_trades _ _ _); discriminate.
    + exfalso. revert H. unfold process_minute_candle, float_of_str.
      rewrite Hx, max_per_second_ok, Ho, Hh by assumption.
      cbn [bind negb].
      destruct (minute_trades _ _ _); discriminate.
    + exfalso. revert H. unfold process_minute_candle, float_of_str.
      rewrite Hx, max_per_second_ok, Ho by assumption.
      cbn [bind negb].
      destruct (minute_trades _ _ _); discriminate.
  - left. rewrite process_open in H by assumption.
    injection H as <- <-. auto.
Qed.

End ProcessorFacts.

(** ** Counting and the maxima *)

Lemma fold_left_add_ones {A : Type} (l : list A) : forall z,
  fold_left Z.add (map (fun _ => 1) l) z = z + Z.of_nat (length l).
Proof.
  induction l as [|x l IH]; intros z; simpl length; cbn [map fold_left].
  - lia.
  - rewrite IH. lia.
Qed.

Lemma count_if_length cond l :
  count_if cond l = Z.of_nat (length (List.filter cond l)).
Proof. unfold count_if. rewrite fold_left_add_ones. lia. Qed.

Lemma filter_sides_length (l : list TradeData) :
  (length (List.filter is_buy l) + length (List.filter is_sell l))%nat = length l.
Proof.
  induction l as [|trade l IH]; simpl; [reflexivity|].
  unfold is_buy, is_sell in *. destruct (is_buyer_maker trade); simpl; lia.
Qed.

Lemma max_of_spec d key l : forall m0,
  m0 <= max_of d key l m0 /\
  (forall k, k ∈ l -> tally_of d k key <= max_of d key l m0) /\
  (max_of d key l m0 = m0 \/
   exists k, k ∈ l /\ max_of d key l m0 = tally_of d k key).
Proof.
  unfold max_of. induction l as [|x l IH]; intros m0; cbn [fold_left].
  - split; [lia|]. split; [|left; reflexivity].
    intros k Hk. apply elem_of_nil in Hk. contradiction.
  - destruct (IH (Z.max m0 (tally_of d x key))) as (Hge & Hall & Hex).
    split; [lia|]. split.
    + intros k Hk. apply elem_of_cons in Hk as [->|Hk]; [lia|].
      apply Hall, Hk.
    + destruct Hex as [Heq|(k & Hk & Heq)].
      * destruct (Z.max_spec m0 (tally_of d x key)) as [[_ Hm]|[_ Hm]].
        -- right. exists x. split; [left|]. congruence.
        -- left. congruence.
      * right. exists k. split; [right; assumption|assumption].
Qed.

(** Seconds that count zero can be added to or dropped from a scan. *)
Lemma max_of_eq_on d key l1 l2 :
  (forall k, k ∈ l1 -> k ∈ l2 \/ tally_of d k key <= 0) ->
  (forall k, k ∈ l2 -> k ∈ l1 \/ tally_of d k key <= 0) ->
  max_of d key l1 0 = max_of d key l2 0.
Proof.
  intros H12 H21.
  destruct (max_of_spec d key l1 0) as (Hge1 & Hall1 & Hex1).
  destruct (max_of_spec d key l2 0) as (Hge2 & Hall2 & Hex2).
  apply Z.le_antisymm.
  - destruct Hex1 as [->|(k & Hk & ->)]; [assumption|].
    destruct (H12 k Hk) as [Hin|Hz]; [apply Hall2, Hin|lia].
  - destruct Hex2 as [->|(k & Hk & ->)]; [assumption|].
    destruct (H21 k Hk) as [Hin|Hz]; [apply Hall1, Hin|lia].
Qed.

Lemma tally_of_absent d k key : d !! k = None -> tally_of d k key = 0.
Proof. intros H. unfold tally_of. rewrite H. reflexivity. Qed.

(** ** The invariant of the tallies *)

Lemma add_trade_counts_ok self trade self' :
  counts_ok (second_trade_counts self) ->
  add_trade self trade = Ok self' ->
  counts_ok (second_trade_counts self').
Proof.
  intros Hd H. rewrite add_trade_ok in H by assumption.
  injection H as <-. cbn [second_trade_counts].
  set (second := timestamp trade / 1000).
  set (d := second_trade_counts self) in *.
  pose proof (defaultdict_getitem_lookup d second) as Hl.
  pose proof (counts_ok_touch d second Hd) as Ht.
  intros k c. destruct (decide (k = second)) as [->|Hne].
  - rewrite lookup_insert_eq. intros [= <-].
    destruct (Ht _ _ Hl) as [Hb Hs].
    split; rewrite lookup_insert_is_Some; unfold side_key;
      destruct (is_buyer_maker trade); auto.
  - rewrite lookup_insert_ne by congruence. apply Ht.
Qed.

Lemma after_close_counts_ok self kline :
  counts_ok (second_trade_counts self) ->
  counts_ok (second_trade_counts (after_close self kline)).
Proof.
  intros Hd. cbn [after_close second_trade_counts].
  apply counts_ok_evict, counts_ok_fold_touch, Hd.
Qed.

Lemma reachable_counts_ok py_float self :
  reachable py_float self -> counts_ok (second_trade_counts self).
Proof.
  induction 1 as [|self trade self' _ IH H|self kline r self' _ IH H].
  - apply counts_ok_empty.
  - eapply add_trade_counts_ok; eassumption.
  - destruct (process_inv _ _ _ _ _ IH H) as [(_ & _ & ->)|(_ & -> & _)].
    + assumption.
    + apply after_close_counts_ok, IH.
Qed.

(** ** The trade-side fields of a candle *)

Section CandleFacts.

Variable py_float : string -> option float.

(** The sides of every returned candle, whatever the tallies hold. *)
Lemma process_candle_sides self kline candle self' :
  process_minute_candle py_float self kline = Ok (Some candle, self') ->
  let trades := minute_trades (trades_buffer self) (k_t kline) (k_T kline) in
  default false (k_x kline) = true /\
  num_buyers candle = count_if is_buy trades /\
  num_sellers candle = count_if is_sell trades /\
  buyers_volume candle = side_volume is_buy trades /\
  sellers_volume candle = side_volume is_sell trades /\
  power_position candle = power_of (num_buyers candle) (num_sellers candle).
Proof.
  intros H trades. unfold process_minute_candle in H. fold trades in H.
  destruct (default false (k_x kline)); cbn [negb] in H; [|discriminate].
  split; [reflexivity|].
  assert (exists o h l c v mb ms,
    candle =
      {| c_timestamp := k_t kline; open_price := o; high_price := h;
         low_price := l; close_price := c; volume := v;
         num_buyers := count_if is_buy trades;
         num_sellers := count_if is_sell trades;
         buyers_volume := side_volume is_buy trades;
         sellers_volume := side_volume is_sell trades;
         power_position :=
           power_of (count_if is_buy trades) (count_if is_sell trades);
         max_buyers_per_second := mb; max_sellers_per_second := ms |})
    as (o & h & l & c & v & mb & ms & ->).
  { unfold side_volume. fold is_buy is_sell in H.
    destruct (max_per_second _ _ _) as [[[d mb] ms]|]; cbn [bind] in H;
      [|destruct trades; discriminate].
    unfold float_of_str in H.
    destruct (py_float (k_o kline)) as [o|]; cbn [bind] in H;
      [|destruct trades; discriminate].
    destruct (py_float (k_h kline)) as [h|]; cbn [bind] in H;
      [|destruct trades; discriminate].
    destruct (py_float (k_l kline)) as [l|]; cbn [bind] in H;
      [|destruct trades; discriminate].
    destruct (py_float (k_c kline)) as [c|]; cbn [bind] in H;
      [|destruct trades; discriminate].
    destruct (py_float (k_v kline)) as [v|]; cbn [bind] in H;
      [|destruct trades; discriminate].
    destruct (clean_up _ _ _) as [[buffer' d']|]; cbn [bind] in H;
      [|destruct trades; discriminate].
    exists o, h, l, c, v, mb, ms.
    destruct trades; injection H as <- _; reflexivity. }
  repeat split; reflexivity.
Qed.

End CandleFacts.

(** ** The range query *)

Lemma minute_trades_In buffer open_time close_time trade :
  In trade (minute_trades buffer open_time close_time) <->
  In trade buffer /\ open_time <= timestamp trade <= close_time.
Proof.
  unfold minute_trades. rewrite filter_In, andb_true_iff, !Z.leb_le.
  tauto.
Qed.

(** ** The claims *)

Section Claims.

Variable py_float : string -> option float.

(** C4. The trades a bucket [open_time, close_time] selects from the buffer
    are exactly the buffered trades whose timestamp lies between the two
    bounds, both bounds included. *)
Theorem minute_trades_inclusive buffer open_time close_time trade :
  In trade (minute_trades buffer open_time close_time) <->
  In trade buffer /\ open_time <= timestamp trade <= close_time.
Proof.
  unfold minute_trades. split.
  - intros H. apply filter_In in H as [Hin Hb].
    apply andb_true_iff in Hb as [Ho Hc].
    apply Z.leb_le in Ho, Hc. auto.
  - intros [Hin [Ho Hc]]. apply filter_In. split; [assumption|].
    apply andb_true_iff. split; apply Z.leb_le; assumption.
Qed.

(** C5. [add_trade] appends the trade to the buffer and adds one to exactly
    one counter, the one of the second [timestamp // 1000]: ['sellers'] when
    [is_buyer_maker] holds, ['buyers'] otherwise; every other count reads as
    before. Nothing is checked: the same trade added again is buffered again
    and counted again. *)
Theorem add_trade_records self trade :
  counts_ok (second_trade_counts self) ->
  let second := timestamp trade / 1000 in
  let key := if is_buyer_maker trade then "sellers" else "buyers" in
  exists self' self'',
    add_trade self trade = Ok self' /\
    trades_buffer self' = trades_buffer self ++ [trade] /\
    tally_of (second_trade_counts self') second key =
      tally_of (second_trade_counts self) second key + 1 /\
    (forall k key', (k, key') <> (second, key) ->
       tally_of (second_trade_counts self') k key' =
         tally_of (second_trade_counts self) k key') /\
    add_trade self' trade = Ok self'' /\
    trades_buffer self'' = trades_buffer self ++ [trade; trade] /\
    tally_of (second_trade_counts self'') second key =
      tally_of (second_trade_counts self) second key + 2.
Proof.
  intros Hd second key.
  assert (forall s : DataProcessor, counts_ok (second_trade_counts s) ->
    exists s', add_trade s trade = Ok s' /\
      trades_buffer s' = trades_buffer s ++ [trade] /\
      tally_of (second_trade_counts s') second key =
        tally_of (second_trade_counts s) second key + 1 /\
      (forall k key', (k, key') <> (second, key) ->
         tally_of (second_trade_counts s') k key' =
           tally_of (second_trade_counts s) k key')) as Hone.
  { intros s Hs. eexists. split; [apply add_trade_ok, Hs|].
    cbn [trades_buffer second_trade_counts]. fold second.
    change (side_key trade) with key.
    split; [reflexivity|]. split.
    - unfold tally_of at 1. rewrite lookup_insert_eq, lookup_insert_eq.
      reflexivity.
    - intros k key' Hne. unfold tally_of at 1.
      destruct (decide (k = second)) as [->|Hk].
      + rewrite lookup_insert_eq, lookup_insert_ne by congruence.
        rewrite <- (tally_of_touch (second_trade_counts s) second second key').
        unfold tally_of. rewrite defaultdict_getitem_lookup. reflexivity.
      + rewrite lookup_insert_ne by congruence.
        rewrite <- (tally_of_touch (second_trade_counts s) second k key').
        reflexivity. }
  destruct (Hone self Hd) as (self' & H1 & Hb1 & Ht1 & Hf1).
  pose proof (add_trade_counts_ok _ _ _ Hd H1) as Hd'.
  destruct (Hone self' Hd') as (self'' & H2 & Hb2 & Ht2 & _).
  exists self', self''. repeat split; try assumption.
  - rewrite Hb2, Hb1, <- app_assoc. reflexivity.
  - rewrite Ht2, Ht1. lia.
Qed.

(** C6. The power position of every returned candle is 0 when the two
    counts are equal, 1 when the buyers are more and -1 when the sellers
    are more. *)
Theorem power_position_tie_break self kline candle self' :
  process_minute_candle py_float self kline = Ok (Some candle, self') ->
  (num_buyers candle = num_sellers candle -> power_position candle = 0) /\
  (num_buyers candle > num_sellers candle -> power_position candle = 1) /\
  (num_sellers candle > num_buyers candle -> power_position candle = -1).
Proof.
  intros H.
  destruct (process_candle_sides _ _ _ _ _ H) as (_ & _ & _ & _ & _ & ->).
  unfold power_of.
  destruct (Z.ltb_spec (num_sellers candle) (num_buyers candle));
    destruct (Z.ltb_spec (num_buyers candle) (num_sellers candle));
    repeat split; intros; try reflexivity; lia.
Qed.

(** C8. A bucket summary that is not marked closed (['x'] false or absent)
    returns [None] and leaves the processor as it was: buffer and tallies
    unchanged, nothing evicted. *)
Theorem open_bucket_ignored self kline :
  default false (k_x kline) = false ->
  process_minute_candle py_float self kline = Ok (None, self).
Proof.
  intros Hx. unfold process_minute_candle.
  rewrite Hx. cbn [negb]. reflexivity.
Qed.

(** C7. A closed bucket whose range matches no buffered trade still returns
    a candle: no exception, not [None], both counts 0, both volumes the
    float 0.0 and power position 0. *)
Theorem empty_range_candle self kline :
  default false (k_x kline) = true ->
  counts_ok (second_trade_counts self) ->
  kline_ok py_float kline ->
  minute_trades (trades_buffer self) (k_t kline) (k_T kline) = [] ->
  exists candle self',
    process_minute_candle py_float self kline = Ok (Some candle, self') /\
    num_buyers candle = 0 /\ num_sellers candle = 0 /\
    buyers_volume candle = PyFloat 0%float /\
    sellers_volume candle = PyFloat 0%float /\
    power_position candle = 0.
Proof.
  intros Hx Hd ([o Ho] & [h Hh] & [l Hl] & [c Hc] & [v Hv]) Hempty.
  exists (candle_of o h l c v self kline), (after_close self kline).
  split; [apply process_closed; assumption|].
  unfold candle_of. cbn [num_buyers num_sellers buyers_volume sellers_volume
    power_position]. rewrite Hempty. repeat split; reflexivity.
Qed.

(** C2, amended. After a closed bucket was processed, which evicts once
    with the cutoff [close_time - 2 * 60 * 1000], no range query on the
    buffer returns a trade whose timestamp is at or before the cutoff, no
    tally is left for a second before the whole second [cutoff // 1000],
    and the maxima of any later scan are those of its seconds from
    [cutoff // 1000] on. *)
Theorem eviction_consistency self kline :
  default false (k_x kline) = true ->
  counts_ok (second_trade_counts self) ->
  kline_ok py_float kline ->
  let cutoff := k_T kline - 2 * 60000 in
  exists candle self',
    process_minute_candle py_float self kline = Ok (Some candle, self') /\
    (forall open_time close_time trade,
       In trade (minute_trades (trades_buffer self') open_time close_time) ->
       cutoff < timestamp trade) /\
    (forall second, second < cutoff / 1000 ->
       second_trade_counts self' !! second = None) /\
    (forall start_second end_second, exists d1 d2 max_buyers max_sellers,
       max_per_second (second_trade_counts self') start_second end_second =
         Ok (d1, max_buyers, max_sellers) /\
       max_per_second (second_trade_counts self')
         (Z.max start_second (cutoff / 1000)) end_second =
         Ok (d2, max_buyers, max_sellers)).
Proof.
  intros Hx Hd Hk cutoff.
  pose proof Hk as ([o Ho] & [h Hh] & [l Hl] & [c Hc] & [v Hv]).
  exists (candle_of o h l c v self kline), (after_close self kline).
  split; [apply process_closed; assumption|].
  assert (cutoff_of kline = cutoff) as Hcut by (unfold cutoff_of, cutoff; lia).
  assert (forall second, second < cutoff / 1000 ->
    second_trade_counts (after_close self kline) !! second = None) as Hgone.
  { intros second Hlt. cbn [after_close second_trade_counts].
    rewrite evict_lookup, Hcut. destruct (decide _); [reflexivity|lia]. }
  split; [|split; [exact Hgone|]].
  - intros open_time close_time trade Hin.
    apply minute_trades_In in Hin as [Hin _].
    cbn [after_close trades_buffer] in Hin.
    apply filter_In in Hin as [_ Hin]. apply Z.ltb_lt in Hin. lia.
  - intros start_second end_second.
    pose proof (after_close_counts_ok self kline Hd) as Hd'.
    do 4 eexists. rewrite !max_per_second_ok by assumption.
    split; [reflexivity|]. f_equal. f_equal; [f_equal|].
    + apply max_of_eq_on; intros k; rewrite !elem_of_py_range;
        intros Hr;
        (destruct (Z.lt_ge_cases k (cutoff / 1000)) as [Hlt|Hge]; [|left; lia]);
        right; rewrite tally_of_absent by (apply Hgone, Hlt); lia.
    + apply max_of_eq_on; intros k; rewrite !elem_of_py_range;
        intros Hr;
        (destruct (Z.lt_ge_cases k (cutoff / 1000)) as [Hlt|Hge]; [|left; lia]);
        right; rewrite tally_of_absent by (apply Hgone, Hlt); lia.
Qed.

(** C9. On every reachable processor, [add_trade] of a trade and
    [process_minute_candle] of a bucket summary whose OHLCV strings are
    numbers return without an exception, and so do the range query, the
    scan of the seconds and the clean-up on their own. *)
Theorem no_exception self trade kline :
  reachable py_float self ->
  kline_ok py_float kline ->
  (exists self', add_trade self trade = Ok self') /\
  (exists r self', process_minute_candle py_float self kline = Ok (r, self')) /\
  (forall start_second end_second, exists r,
     max_per_second (second_trade_counts self) start_second end_second = Ok r) /\
  (forall cutoff_time, exists r,
     clean_up (trades_buffer self) (second_trade_counts self) cutoff_time = Ok r).
Proof.
  intros Hr ([o Ho] & [h Hh] & [l Hl] & [c Hc] & [v Hv]).
  pose proof (reachable_counts_ok _ _ Hr) as Hd.
  split; [|split; [|split]].
  - eexists. apply add_trade_ok, Hd.
  - destruct (default false (k_x kline)) eqn:Hx.
    + do 2 eexists. apply (process_closed _ _ _ o h l c v); assumption.
    + do 2 eexists. apply process_open, Hx.
  - intros. eexists. apply max_per_second_ok, Hd.
  - intros. eexists. apply clean_up_ok.
Qed.

(** C1. From a fresh processor, a buy at 1000, a sell at 1500 and a buy at
    2999 are recorded and the closed bucket [0, 3000] is processed: the
    candle has 2 buyers, 1 seller, power position 1 and at most 1 buyer and
    1 seller in one second. *)
Theorem scenario_three_trades p1 q1 i1 p2 q2 i2 p3 q3 i3 o h l c v :
  let t1 := {| timestamp := 1000; price := p1; quantity := q1;
               is_buyer_maker := false; trade_id := i1 |} in
  let t2 := {| timestamp := 1500; price := p2; quantity := q2;
               is_buyer_maker := true; trade_id := i2 |} in
  let t3 := {| timestamp := 2999; price := p3; quantity := q3;
               is_buyer_maker := false; trade_id := i3 |} in
  let kline := {| k_x := Some true; k_t := 0; k_T := 3000;
                  k_o := o; k_h := h; k_l := l; k_c := c; k_v := v |} in
  kline_ok py_float kline ->
  exists s1 s2 s3 candle self',
    add_trade init t1 = Ok s1 /\
    add_trade s1 t2 = Ok s2 /\
    add_trade s2 t3 = Ok s3 /\
    process_minute_candle py_float s3 kline = Ok (Some candle, self') /\
    num_buyers candle = 2 /\ num_sellers candle = 1 /\
    power_position candle = 1 /\
    max_buyers_per_second candle = 1 /\ max_sellers_per_second candle = 1.
Proof.
  intros t1 t2 t3 kline ([fo Ho] & [fh Hh] & [fl Hl] & [fc Hc] & [fv Hv]).
  pose proof counts_ok_empty as H0.
  change (counts_ok (second_trade_counts init)) in H0.
  pose proof (add_trade_ok init t1 H0) as E1. cbv zeta in E1.
  pose proof (add_trade_counts_ok _ _ _ H0 E1) as H1.
  pose proof (add_trade_ok _ t2 H1) as E2. cbv zeta in E2.
  pose proof (add_trade_counts_ok _ _ _ H1 E2) as H2.
  pose proof (add_trade_ok _ t3 H2) as E3. cbv zeta in E3.
  pose proof (add_trade_counts_ok _ _ _ H2 E3) as H3.
  do 5 eexists.
  split; [exact E1|]. split; [exact E2|]. split; [exact E3|].
  split; [apply (process_closed py_float _ kline fo fh fl fc fv);
          [reflexivity|exact H3|assumption..]|].
  repeat split; vm_compute; reflexivity.
Qed.

(** C10, amended. The sides of every candle of a bucket that matched a
    trade split the matched trades: the two counts add up to their number,
    the matched trades are the buyer-initiated ones and the
    seller-initiated ones rearranged, and each volume is the [sum] of the
    quantities of its own side. *)
Theorem partition_complete self kline candle self' :
  process_minute_candle py_float self kline = Ok (Some candle, self') ->
  let trades := minute_trades (trades_buffer self) (k_t kline) (k_T kline) in
  trades <> [] ->
  num_buyers candle + num_sellers candle = Z.of_nat (length trades) /\
  Permutation trades (List.filter is_buy trades ++ List.filter is_sell trades) /\
  (forall trade, In trade trades -> is_buy trade = negb (is_sell trade)) /\
  buyers_volume candle = py_sum (quantities (List.filter is_buy trades)) /\
  sellers_volume candle = py_sum (quantities (List.filter is_sell trades)).
Proof.
  intros H trades Hne.
  destruct (process_candle_sides _ _ _ _ _ H) as (_ & -> & -> & -> & -> & _).
  fold trades. split; [|split; [|split; [|split]]].
  - rewrite !count_if_length, <- Nat2Z.inj_add, filter_sides_length.
    reflexivity.
  - clear. induction trades as [|trade l IH]; [constructor|].
    cbn [List.filter]. unfold is_buy at 1, is_sell at 1.
    destruct (is_buyer_maker trade); cbn [negb].
    + apply Permutation_cons_app. exact IH.
    + cbn [app]. constructor. exact IH.
  - reflexivity.
  - unfold side_volume. destruct trades; [contradiction|reflexivity].
  - unfold side_volume. destruct trades; [contradiction|reflexivity].
Qed.

End Claims.

(** ** Evaluations *)

Lemma sample_process :
  process_minute_candle py_float_sample sample_processor (sample_kline true 0 3000)
    = Ok (Some sample_candle, sample_after).
Proof. vm_compute. reflexivity. Qed.

Lemma sample_reachable : reachable py_float_sample sample_processor.
Proof.
  assert (forall l s, reachable py_float_sample s ->
            forall s', for_each add_trade l s = Ok s' ->
            reachable py_float_sample s') as Hrun.
  { induction l as [|trade l IH]; intros s Hs s' H; cbn [for_each] in H.
    - injection H as <-. exact Hs.
    - destruct (add_trade s trade) as [s1|] eqn:E; [|discriminate].
      cbn [bind] in H. eapply IH; [|exact H].
      eapply reach_trade; eassumption. }
  apply (Hrun sample_trades init (reach_init _)).
  vm_compute. reflexivity.
Qed.

(** C3, on the code. Scanning the second 0 of a fresh processor, whose
    tallies are empty, returns the maxima 0 and 0 and leaves a tally for
    the second 0 that no trade recorded; the entry is still there after
    the whole call on the closed bucket [0, 0]. *)
Theorem scan_inserts_tallies :
  second_trade_counts init !! 0 = None /\
  max_per_second (second_trade_counts init) 0 0 =
    Ok (<[0 := default_factory]> ∅, 0, 0) /\
  exists candle self',
    process_minute_candle py_float_sample init (sample_kline true 0 0) =
      Ok (Some candle, self') /\
    second_trade_counts self' !! 0 = Some default_factory /\
    second_trade_counts self' <> second_trade_counts init.
Proof.
  split; [reflexivity|]. split; [vm_compute; reflexivity|].
  exists (candle_of 0x1p+0%float 0x1.4p+1%float 0x1p-1%float 0x1p+0%float
            0x1.4p+1%float init (sample_kline true 0 0)),
    (after_close init (sample_kline true 0 0)).
  split; [vm_compute; reflexivity|].
  assert (second_trade_counts (after_close init (sample_kline true 0 0)) !! 0
          = Some default_factory) as H by (vm_compute; reflexivity).
  split; [exact H|].
  intros Heq. rewrite Heq in H. discriminate.
Qed.

(** C10, as stated, fails: for a buy of 0.1, a sell of 0.2 and a buy of
    0.4 in one bucket the two volumes are 0.5 and 0.2 and add up to 0.7,
    while the [sum] of the three quantities is 0.7000000000000001. *)
Lemma volumes_do_not_add_up :
  exists self kline candle self',
    process_minute_candle py_float_sample self kline = Ok (Some candle, self') /\
    reachable py_float_sample self /\
    minute_trades (trades_buffer self) (k_t kline) (k_T kline) = sample_trades /\
    py_add (buyers_volume candle) (sellers_volume candle) = PyFloat f_0_7 /\
    py_sum (quantities
              (minute_trades (trades_buffer self) (k_t kline) (k_T kline))) =
      PyFloat f_0_7_up /\
    py_add (buyers_volume candle) (sellers_volume candle) <>
      py_sum (quantities
                (minute_trades (trades_buffer self) (k_t kline) (k_T kline))).
Proof.
  exists sample_processor, (sample_kline true 0 3000), sample_candle, sample_after.
  split; [exact sample_process|]. split; [exact sample_reachable|].
  assert (minute_trades (trades_buffer sample_processor)
            (k_t (sample_kline true 0 3000)) (k_T (sample_kline true 0 3000))
          = sample_trades) as -> by (vm_compute; reflexivity).
  split; [reflexivity|].
  assert (py_add (buyers_volume sample_candle) (sellers_volume sample_candle)
          = PyFloat f_0_7) as -> by (vm_compute; reflexivity).
  assert (py_sum (quantities sample_trades) = PyFloat f_0_7_up) as ->
    by (vm_compute; reflexivity).
  split; [reflexivity|]. split; [reflexivity|].
  intros H. apply (f_equal (fun x => match x with
                                    | PyFloat f => PrimFloat.eqb f f_0_7
                                    | PyInt _ => false
                                    end)) in H.
  vm_compute in H. discriminate.
Qed.

(** ** The theorems at the sample inputs *)

Lemma sample_counts_ok : counts_ok (second_trade_counts sample_processor).
Proof. exact (reachable_counts_ok _ _ sample_reachable). Qed.

Lemma sample_kline_ok closed open_time close_time :
  kline_ok py_float_sample (sample_kline closed open_time close_time).
Proof. repeat split; eexists; reflexivity. Qed.

Lemma scenario_three_trades_witness :
  kline_ok py_float_sample (sample_kline true 0 3000) /\
  exists s3 candle self',
    for_each add_trade sample_trades init = Ok s3 /\
    process_minute_candle py_float_sample s3 (sample_kline true 0 3000) =
      Ok (Some candle, self') /\
    num_buyers candle = 2 /\ num_sellers candle = 1 /\
    power_position candle = 1 /\
    max_buyers_per_second candle = 1 /\ max_sellers_per_second candle = 1.
Proof.
  split; [apply sample_kline_ok|].
  destruct (scenario_three_trades py_float_sample
              0x1p+0%float f_0_1 1 0x1p+0%float f_0_2 2 0x1p+0%float f_0_4 3
              "1.0" "2.5" "0.5" "1.0" "2.5" (sample_kline_ok true 0 3000))
    as (s1 & s2 & s3 & candle & self' & E1 & E2 & E3 & Hp & Hfields).
  exists s3, candle, self'. split.
  - unfold sample_trades. cbn [for_each].
    rewrite E1. cbn [bind]. rewrite E2. cbn [bind]. rewrite E3. reflexivity.
  - split; [exact Hp|exact Hfields].
Defined.

Lemma for_each_add_trade_reachable py_float l : forall self self',
  reachable py_float self ->
  for_each add_trade l self = Ok self' ->
  reachable py_float self'.
Proof.
  induction l as [|trade l IH]; intros self self' Hr H; cbn [for_each] in H.
  - injection H as <-. exact Hr.
  - destruct (add_trade self trade) as [s1|] eqn:E; [|discriminate].
    cbn [bind] in H. eapply IH; [|exact H].
    eapply reach_trade; eassumption.
Qed.

Lemma eviction_reachable : reachable py_float_sample eviction_processor.
Proof.
  apply (for_each_add_trade_reachable py_float_sample eviction_trades init);
    [apply reach_init|].
  vm_compute. reflexivity.
Qed.

Lemma eviction_counts_ok : counts_ok (second_trade_counts eviction_processor).
Proof. exact (reachable_counts_ok _ _ eviction_reachable). Qed.

Lemma eviction_process :
  process_minute_candle py_float_sample eviction_processor eviction_kline
    = Ok (Some eviction_candle, eviction_after).
Proof. vm_compute. reflexivity. Qed.

(** The buffer and the tallies before and after the close of the bucket
    [120000, 179999]: four of the five trades and the tallies of the
    seconds 1 and 2 are dropped, the tally of the second 59 stays. *)
Lemma eviction_effect :
  map timestamp (trades_buffer eviction_processor) =
    [1000; 1500; 2999; 59500; 150000] /\
  map timestamp (trades_buffer eviction_after) = [150000] /\
  is_Some (second_trade_counts eviction_processor !! 1) /\
  is_Some (second_trade_counts eviction_processor !! 2) /\
  second_trade_counts eviction_after !! 1 = None /\
  second_trade_counts eviction_after !! 2 = None /\
  tally_of (second_trade_counts eviction_after) 59 "buyers" = 1 /\
  tally_of (second_trade_counts eviction_after) 59 "sellers" = 0.
Proof.
  split; [vm_compute; reflexivity|]. split; [vm_compute; reflexivity|].
  split; [vm_compute; eexists; reflexivity|].
  split; [vm_compute; eexists; reflexivity|].
  repeat split; vm_compute; reflexivity.
Qed.

(** C2, as stated, fails when [cutoff / 1000] is the exact quotient: the
    close of the bucket [120000, 179999] has the cutoff 59999; the second
    59 is before 59.999 and its only trade, at 59500, is evicted, yet its
    tally stays and a later scan of the second 59 returns the maxima 1
    and 0. *)
Lemma cutoff_second_tally_survives :
  exists self kline candle self' second d,
    for_each add_trade eviction_trades init = Ok self /\
    process_minute_candle py_float_sample self kline = Ok (Some candle, self') /\
    k_T kline - 2 * 60000 = 59999 /\
    second * 1000 < k_T kline - 2 * 60000 /\
    (forall trade, In trade (trades_buffer self') ->
       timestamp trade / 1000 <> second) /\
    tally_of (second_trade_counts self') second "buyers" = 1 /\
    max_per_second (second_trade_counts self') second second = Ok (d, 1, 0).
Proof.
  exists eviction_processor, eviction_kline, eviction_candle, eviction_after, 59,
    (fold_left touch (py_range 59 (59 + 1)) (second_trade_counts eviction_after)).
  destruct eviction_effect as (_ & Hb & _ & _ & _ & _ & Ht & Hts).
  split; [vm_compute; reflexivity|]. split; [exact eviction_process|].
  split; [reflexivity|]. split; [reflexivity|]. split; [|split; [exact Ht|]].
  - intros trade Hin Hs.
    apply (in_map timestamp) in Hin. rewrite Hb in Hin.
    destruct Hin as [Hin|[]]. rewrite <- Hin in Hs. discriminate Hs.
  - rewrite max_per_second_ok
      by (apply after_close_counts_ok, eviction_counts_ok).
    change (py_range 59 (59 + 1)) with [59].
    unfold max_of. cbn [fold_left]. rewrite Ht, Hts. reflexivity.
Qed.

Lemma eviction_consistency_witness :
  default false (k_x eviction_kline) = true /\
  counts_ok (second_trade_counts eviction_processor) /\
  kline_ok py_float_sample eviction_kline /\
  exists candle self',
    process_minute_candle py_float_sample eviction_processor eviction_kline =
      Ok (Some candle, self') /\
    map timestamp (trades_buffer eviction_processor) =
      [1000; 1500; 2999; 59500; 150000] /\
    map timestamp (trades_buffer self') = [150000] /\
    (forall open_time close_time trade,
       In trade (minute_trades (trades_buffer self') open_time close_time) ->
       59999 < timestamp trade) /\
    is_Some (second_trade_counts eviction_processor !! 1) /\
    is_Some (second_trade_counts eviction_processor !! 2) /\
    (forall second, second < 59 ->
       second_trade_counts self' !! second = None) /\
    (exists d1 d2 max_buyers max_sellers,
       max_per_second (second_trade_counts self') 0 200 =
         Ok (d1, max_buyers, max_sellers) /\
       max_per_second (second_trade_counts self') 59 200 =
         Ok (d2, max_buyers, max_sellers)).
Proof.
  split; [reflexivity|]. split; [exact eviction_counts_ok|].
  split; [apply sample_kline_ok|].
  destruct (eviction_consistency py_float_sample eviction_processor
              eviction_kline eq_refl eviction_counts_ok
              (sample_kline_ok true 120000 179999))
    as (candle & self' & Hp & Hbuf & Hgone & Hscan).
  exists candle, self'. split; [exact Hp|].
  assert (self' = eviction_after) as Hs.
  { pose proof eviction_process as E. rewrite Hp in E.
    injection E as _ E. exact E. }
  destruct eviction_effect as (Hb0 & Hb1 & H1 & H2 & _).
  split; [exact Hb0|]. split; [rewrite Hs; exact Hb1|].
  split; [exact Hbuf|]. split; [exact H1|]. split; [exact H2|].
  split; [exact Hgone|]. exact (Hscan 0 200).
Defined.

Lemma add_trade_records_witness :
  counts_ok (second_trade_counts init) /\
  exists self' self'',
    add_trade init (mkTradeData 1500 0x1p+0%float f_0_2 true 2) = Ok self' /\
    tally_of (second_trade_counts self') 1 "sellers" = 1 /\
    add_trade self' (mkTradeData 1500 0x1p+0%float f_0_2 true 2) = Ok self'' /\
    tally_of (second_trade_counts self'') 1 "sellers" = 2.
Proof.
  split; [exact counts_ok_empty|].
  destruct (add_trade_records init (mkTradeData 1500 0x1p+0%float f_0_2 true 2)
              counts_ok_empty)
    as (self' & self'' & H1 & _ & Ht1 & _ & H2 & _ & Ht2).
  exists self', self''. repeat split; assumption.
Defined.

Lemma power_position_tie_break_witness :
  process_minute_candle py_float_sample sample_processor
    (sample_kline true 0 3000) = Ok (Some sample_candle, sample_after) /\
  (num_buyers sample_candle > num_sellers sample_candle ->
   power_position sample_candle = 1).
Proof.
  split; [exact sample_process|].
  exact (proj1 (proj2 (power_position_tie_break py_float_sample _ _ _ _
                         sample_process))).
Defined.

Lemma empty_range_candle_witness :
  default false (k_x (sample_kline true 60000 119999)) = true /\
  counts_ok (second_trade_counts sample_processor) /\
  kline_ok py_float_sample (sample_kline true 60000 119999) /\
  minute_trades (trades_buffer sample_processor) 60000 119999 = [] /\
  exists candle self',
    process_minute_candle py_float_sample sample_processor
      (sample_kline true 60000 119999) = Ok (Some candle, self') /\
    num_buyers candle = 0 /\ num_sellers candle = 0 /\
    buyers_volume candle = PyFloat 0%float /\
    sellers_volume candle = PyFloat 0%float /\
    power_position candle = 0.
Proof.
  split; [reflexivity|]. split; [exact sample_counts_ok|].
  split; [apply sample_kline_ok|]. split; [reflexivity|].
  exact (empty_range_candle py_float_sample sample_processor
           (sample_kline true 60000 119999) eq_refl sample_counts_ok
           (sample_kline_ok true 60000 119999) eq_refl).
Defined.

Lemma open_bucket_ignored_witness :
  default false (k_x (sample_kline false 0 3000)) = false /\
  process_minute_candle py_float_sample sample_processor
    (sample_kline false 0 3000) = Ok (None, sample_processor).
Proof.
  split; [reflexivity|].
  exact (open_bucket_ignored py_float_sample sample_processor
           (sample_kline false 0 3000) eq_refl).
Defined.

Lemma no_exception_witness :
  reachable py_float_sample sample_processor /\
  kline_ok py_float_sample (sample_kline true 0 3000) /\
  (exists self',
     add_trade sample_processor (mkTradeData 1500 0x1p+0%float f_0_2 true 2)
       = Ok self') /\
  (exists r self',
     process_minute_candle py_float_sample sample_processor
       (sample_kline true 0 3000) = Ok (r, self')).
Proof.
  split; [exact sample_reachable|]. split; [apply sample_kline_ok|].
  destruct (no_exception py_float_sample sample_processor
              (mkTradeData 1500 0x1p+0%float f_0_2 true 2)
              (sample_kline true 0 3000) sample_reachable
              (sample_kline_ok true 0 3000)) as (Ha & Hp & _).
  split; [exact Ha|exact Hp].
Defined.

Lemma partition_complete_witness :
  process_minute_candle py_float_sample sample_processor
    (sample_kline true 0 3000) = Ok (Some sample_candle, sample_after) /\
  minute_trades (trades_buffer sample_processor) 0 3000 <> [] /\
  num_buyers sample_candle + num_sellers sample_candle = 3.
Proof.
  assert (minute_trades (trades_buffer sample_processor) 0 3000 <> []) as Hne
    by (vm_compute; discriminate).
  split; [exact sample_process|]. split; [exact Hne|].
  exact (proj1 (partition_complete py_float_sample sample_processor
                  (sample_kline true 0 3000) sample_candle sample_after
                  sample_process Hne)).
Defined.

(** ** Tallies and buffer *)

Lemma add_trade_tally self trade self' :
  counts_ok (second_trade_counts self) ->
  add_trade self trade = Ok self' ->
  trades_buffer self' = trades_buffer self ++ [trade] /\
  forall second key,
    tally_of (second_trade_counts self') second key =
      tally_of (second_trade_counts self) second key +
      (if tallied_at second key trade then 1 else 0).
Proof.
  intros Hd H. rewrite add_trade_ok in H by assumption. injection H as <-.
  cbn [trades_buffer second_trade_counts]. split; [reflexivity|].
  intros second key. unfold tallied_at.
  set (d := second_trade_counts self).
  set (sec := timestamp trade / 1000).
  destruct (Z.eqb_spec sec second) as [<-|Hsec]; cbn [andb].
  - unfold tally_of at 1. rewrite lookup_insert_eq.
    destruct (String.eqb_spec (side_key trade) key) as [<-|Hkey].
    + rewrite lookup_insert_eq. reflexivity.
    + rewrite lookup_insert_ne by assumption.
      rewrite <- (tally_of_touch d sec sec key). unfold tally_of.
      rewrite defaultdict_getitem_lookup. lia.
  - unfold tally_of at 1. rewrite lookup_insert_ne by assumption.
    rewrite <- (tally_of_touch d sec second key). unfold tally_of. lia.
Qed.

Lemma count_in_app l1 l2 second key :
  count_in (l1 ++ l2) second key = count_in l1 second key + count_in l2 second key.
Proof. unfold count_in. rewrite List.filter_app, List.length_app. lia. Qed.

Lemma count_in_one trade second key :
  count_in [trade] second key = if tallied_at second key trade then 1 else 0.
Proof. unfold count_in. cbn. destruct (tallied_at second key trade); reflexivity. Qed.

Lemma count_in_filter_le cond l second key :
  count_in (List.filter cond l) second key <= count_in l second key.
Proof.
  unfold count_in. apply inj_le.
  induction l as [|trade l IH]; cbn [List.filter]; [reflexivity|].
  destruct (cond trade); cbn [List.filter];
    destruct (tallied_at second key trade); cbn [length]; lia.
Qed.

Lemma count_in_none l second key :
  (forall trade, In trade l -> timestamp trade / 1000 <> second) ->
  count_in l second key = 0.
Proof.
  intros H. unfold count_in.
  induction l as [|trade l IH]; [reflexivity|]. cbn [List.filter].
  unfold tallied_at at 1.
  destruct (Z.eqb_spec (timestamp trade / 1000) second) as [E|_].
  - exfalso. apply (H trade); [left; reflexivity|exact E].
  - cbn [andb]. apply IH. intros t Ht. apply H. right. exact Ht.
Qed.

Lemma for_each_add_trade l : forall self,
  counts_ok (second_trade_counts self) ->
  exists self',
    for_each add_trade l self = Ok self' /\
    trades_buffer self' = trades_buffer self ++ l /\
    forall second key,
      tally_of (second_trade_counts self') second key =
        tally_of (second_trade_counts self) second key + count_in l second key.
Proof.
  induction l as [|trade l IH]; intros self Hd; cbn [for_each].
  - exists self. split; [reflexivity|]. split; [symmetry; apply app_nil_r|].
    intros. unfold count_in. cbn. lia.
  - destruct (add_trade self trade) as [s1|] eqn:E.
    2:{ rewrite add_trade_ok in E by assumption. discriminate. }
    cbn [bind].
    destruct (add_trade_tally _ _ _ Hd E) as [Hb Ht].
    destruct (IH s1 (add_trade_counts_ok _ _ _ Hd E)) as (s' & Hrun & Hb' & Ht').
    exists s'. split; [exact Hrun|]. split.
    + rewrite Hb', Hb, <- app_assoc. reflexivity.
    + intros second key. rewrite Ht', Ht.
      change (trade :: l) with ([trade] ++ l).
      rewrite count_in_app, count_in_one. lia.
Qed.

Lemma count_in_Permutation l1 l2 second key :
  Permutation l1 l2 -> count_in l1 second key = count_in l2 second key.
Proof.
  intros Hp. unfold count_in. f_equal.
  induction Hp as [|x l l' _ IH|x y l|l l' l'' _ IH1 _ IH2]; cbn [List.filter].
  - reflexivity.
  - destruct (tallied_at second key x); cbn [length]; lia.
  - destruct (tallied_at second key x), (tallied_at second key y);
      reflexivity.
  - lia.
Qed.

(** X1. Adding a list of trades to a processor with well-formed tallies
    returns, appends the trades to the buffer in the order given, and raises
    each count by exactly the number of added trades of that second and
    side; the counts therefore do not depend on the order in which the
    trades arrive. *)
Theorem add_trades_count l l' self :
  counts_ok (second_trade_counts self) ->
  Permutation l l' ->
  exists s s',
    for_each add_trade l self = Ok s /\
    for_each add_trade l' self = Ok s' /\
    trades_buffer s = trades_buffer self ++ l /\
    trades_buffer s' = trades_buffer self ++ l' /\
    forall second key,
      tally_of (second_trade_counts s) second key =
        tally_of (second_trade_counts self) second key + count_in l second key /\
      tally_of (second_trade_counts s') second key =
        tally_of (second_trade_counts s) second key.
Proof.
  intros Hd Hp.
  destruct (for_each_add_trade l self Hd) as (s & Hs & Hb & Ht).
  destruct (for_each_add_trade l' self Hd) as (s' & Hs' & Hb' & Ht').
  exists s, s'. repeat split; try assumption.
  - apply Ht.
  - rewrite Ht', Ht. f_equal. symmetry. apply count_in_Permutation, Hp.
Qed.

Section TallyInvariant.

Variable py_float : string -> option float.

(** X2. In every reachable processor each count is at least the number of
    buffered trades of that second and side: the clean-up drops a trade only
    together with, or before, the tally that counted it. *)
Theorem tallies_cover_buffer self :
  reachable py_float self ->
  forall second key,
    count_in (trades_buffer self) second key <=
      tally_of (second_trade_counts self) second key.
Proof.
  induction 1 as [|self trade self' Hr IH H|self kline r self' Hr IH H];
    intros second key.
  - unfold count_in, tally_of. cbn. rewrite lookup_empty. lia.
  - pose proof (reachable_counts_ok _ _ Hr) as Hd.
    destruct (add_trade_tally _ _ _ Hd H) as [-> ->].
    rewrite count_in_app, count_in_one. specialize (IH second key). lia.
  - pose proof (reachable_counts_ok _ _ Hr) as Hd.
    destruct (process_inv _ _ _ _ _ Hd H) as [(_ & _ & ->)|(_ & -> & _)];
      [apply IH|].
    cbn [after_close trades_buffer second_trade_counts].
    unfold tally_of. rewrite evict_lookup.
    destruct (decide (second < cutoff_of kline / 1000)) as [Hlt|Hge].
    + rewrite count_in_none; [lia|].
      intros trade Hin Hsec. apply filter_In in Hin as [_ Hin].
      apply Z.ltb_lt in Hin.
      assert (cutoff_of kline / 1000 <= timestamp trade / 1000)
        by (apply Z.div_le_mono; lia).
      lia.
    + change (count_in (List.filter (fun trade => cutoff_of kline <? timestamp trade)
                          (trades_buffer self)) second key <=
              tally_of (fold_left touch (seconds_of kline)
                          (second_trade_counts self)) second key).
      rewrite tally_of_fold_touch.
      etransitivity; [apply count_in_filter_le|apply IH].
Qed.

End TallyInvariant.

(** ** More on process_minute_candle *)

Lemma fold_touch_fixed l : forall d : gmap Z counts,
  (forall k, k ∈ l -> is_Some (d !! k)) -> fold_left touch l d = d.
Proof.
  induction l as [|second l IH]; intros d H; cbn [fold_left]; [reflexivity|].
  assert (touch d second = d) as ->.
  { unfold touch, defaultdict_getitem.
    destruct (H second) as [c ->]; [left|reflexivity]. }
  apply IH. intros k Hk. apply H. right. exact Hk.
Qed.

Lemma evict_fixed (d : gmap Z counts) cutoff_second :
  (forall k, is_Some (d !! k) -> cutoff_second <= k) ->
  evict d cutoff_second = d.
Proof.
  intros H. apply map_eq. intros k. rewrite evict_lookup.
  destruct (decide (k < cutoff_second)) as [Hlt|]; [|reflexivity].
  destruct (d !! k) eqn:E; [|reflexivity].
  assert (cutoff_second <= k) by (apply H; rewrite E; eexists; reflexivity).
  lia.
Qed.

Lemma filter_filter_same {A : Type} (f : A -> bool) (l : list A) :
  List.filter f (List.filter f l) = List.filter f l.
Proof.
  induction l as [|x l IH]; [reflexivity|]. cbn [List.filter].
  destruct (f x) eqn:E; [|exact IH]. cbn [List.filter]. rewrite E, IH.
  reflexivity.
Qed.

Lemma filter_filter_imp {A : Type} (f g : A -> bool) (l : list A) :
  (forall x, f x = true -> g x = true) ->
  List.filter f (List.filter g l) = List.filter f l.
Proof.
  intros Himp. induction l as [|x l IH]; [reflexivity|]. cbn [List.filter].
  destruct (g x) eqn:Eg; cbn [List.filter].
  - rewrite IH. reflexivity.
  - destruct (f x) eqn:Ef; [|exact IH].
    rewrite (Himp x Ef) in Eg. discriminate.
Qed.

Lemma max_of_ext d1 d2 key l : forall m0,
  (forall k, k ∈ l -> tally_of d1 k key = tally_of d2 k key) ->
  max_of d1 key l m0 = max_of d2 key l m0.
Proof.
  unfold max_of. induction l as [|x l IH]; intros m0 H; cbn [fold_left];
    [reflexivity|].
  rewrite (H x) by left. apply IH. intros k Hk. apply H. right. exact Hk.
Qed.

Section MoreProcessor.

Variable py_float : string -> option float.

(** X3. The two maxima of every candle of a closed bucket are not negative,
    bound the count of every second from [open_time // 1000] to
    [close_time // 1000], and are 0 or the count of one of these seconds. *)
Theorem maxima_attained self kline candle self' :
  counts_ok (second_trade_counts self) ->
  process_minute_candle py_float self kline = Ok (Some candle, self') ->
  largest_count (second_trade_counts self) "buyers"
    (k_t kline / 1000) (k_T kline / 1000) (max_buyers_per_second candle) /\
  largest_count (second_trade_counts self) "sellers"
    (k_t kline / 1000) (k_T kline / 1000) (max_sellers_per_second candle).
Proof.
  intros Hd H.
  destruct (process_inv _ _ _ _ _ Hd H) as [(_ & Hr & _)|(_ & _ & Hc)];
    [discriminate|].
  destruct Hc as (o & h & l & c & v & [= ->]).
  assert (forall key, largest_count (second_trade_counts self) key
            (k_t kline / 1000) (k_T kline / 1000)
            (max_of (second_trade_counts self) key (seconds_of kline) 0)) as Hm.
  { intros key.
    destruct (max_of_spec (second_trade_counts self) key (seconds_of kline) 0)
      as (Hge & Hall & Hex).
    split; [exact Hge|]. split.
    - intros second Hs. apply Hall. apply elem_of_py_range. lia.
    - destruct Hex as [->|(k & Hk & ->)]; [left; reflexivity|].
      right. exists k. split; [|reflexivity].
      apply elem_of_py_range in Hk. lia. }
  split; apply Hm.
Qed.

(** X4. Closing again a bucket that is shorter than the two minutes kept
    returns the same candle and leaves the processor as the first close
    left it. *)
Theorem close_again self kline candle self' :
  counts_ok (second_trade_counts self) ->
  k_T kline - 2 * 60 * 1000 < k_t kline ->
  process_minute_candle py_float self kline = Ok (Some candle, self') ->
  process_minute_candle py_float self' kline = Ok (Some candle, self').
Proof.
  intros Hd Hshort H.
  destruct (process_inv _ _ _ _ _ Hd H) as [(_ & Hr & _)|(Hx & -> & Hc)];
    [discriminate|].
  destruct Hc as (o & h & l & c & v & [= ->]).
  assert (py_float (k_o kline) = Some o /\ py_float (k_h kline) = Some h /\
          py_float (k_l kline) = Some l /\ py_float (k_c kline) = Some c /\
          py_float (k_v kline) = Some v) as (Ho & Hh & Hl & Hc & Hv).
  { revert H. unfold process_minute_candle, float_of_str.
    rewrite Hx, max_per_second_ok by assumption. cbn [negb bind].
    destruct (py_float (k_o kline)) as [o'|]; cbn [bind];
      [|destruct (minute_trades _ _ _); discriminate].
    destruct (py_float (k_h kline)) as [h'|]; cbn [bind];
      [|destruct (minute_trades _ _ _); discriminate].
    destruct (py_float (k_l kline)) as [l'|]; cbn [bind];
      [|destruct (minute_trades _ _ _); discriminate].
    destruct (py_float (k_c kline)) as [c'|]; cbn [bind];
      [|destruct (minute_trades _ _ _); discriminate].
    destruct (py_float (k_v kline)) as [v'|]; cbn [bind];
      [|destruct (minute_trades _ _ _); discriminate].
    rewrite clean_up_ok. cbn [bind].
    destruct (minute_trades _ _ _); intros [= -> -> -> -> ->]; auto. }
  pose proof (after_close_counts_ok self kline Hd) as Hd'.
  rewrite (process_closed py_float _ kline o h l c v) by assumption.
  assert (Hsec : cutoff_of kline / 1000 <= k_t kline / 1000)
    by (apply Z.div_le_mono; unfold cutoff_of; lia).
  assert (Hkeep : forall second, second ∈ seconds_of kline ->
            cutoff_of kline / 1000 <= second).
  { intros second Hs. apply elem_of_py_range in Hs. lia. }
  assert (Htrades :
    minute_trades (trades_buffer (after_close self kline)) (k_t kline) (k_T kline)
    = minute_trades (trades_buffer self) (k_t kline) (k_T kline)).
  { cbn [after_close trades_buffer]. unfold minute_trades.
    apply filter_filter_imp. intros trade Ht.
    apply andb_true_iff in Ht as [Ht _]. apply Z.leb_le in Ht.
    apply Z.ltb_lt. unfold cutoff_of. lia. }
  assert (Hmax : forall key,
    max_of (second_trade_counts (after_close self kline)) key (seconds_of kline) 0
    = max_of (second_trade_counts self) key (seconds_of kline) 0).
  { intros key. apply max_of_ext. intros k Hk.
    cbn [after_close second_trade_counts]. unfold tally_of at 1.
    rewrite evict_lookup.
    destruct (decide _) as [Hlt|_]; [specialize (Hkeep k Hk); lia|].
    apply (tally_of_fold_touch (seconds_of kline)). }
  do 2 f_equal.
  - f_equal. unfold candle_of. rewrite Htrades, !Hmax. reflexivity.
  - unfold after_close.
    cbn [trades_buffer second_trade_counts current_minute_start].
    rewrite filter_filter_same. f_equal.
    set (d1 := evict (fold_left touch (seconds_of kline)
                        (second_trade_counts self)) (cutoff_of kline / 1000)).
    rewrite (fold_touch_fixed (seconds_of kline) d1).
    + apply evict_fixed. intros k [c0 Hk]. unfold d1 in Hk.
      rewrite evict_lookup in Hk.
      destruct (decide (k < cutoff_of kline / 1000)); [discriminate|lia].
    + intros k Hk. unfold d1. rewrite evict_lookup.
      destruct (decide _) as [Hlt|_]; [specialize (Hkeep k Hk); lia|].
      rewrite fold_touch_lookup.
      destruct (second_trade_counts self !! k); [eexists; reflexivity|].
      destruct (decide (k ∈ seconds_of kline)); [eexists; reflexivity|].
      contradiction.
Qed.

End MoreProcessor.

Section Retention.

Variable py_float : string -> option float.

(** X5. Closing a bucket keeps, in their order, exactly the buffered trades
    that are newer than [close_time - 2 * 60 * 1000], and every count of a
    second from the cutoff second on reads as before. *)
Theorem close_keeps_recent self kline candle self' :
  counts_ok (second_trade_counts self) ->
  process_minute_candle py_float self kline = Ok (Some candle, self') ->
  let cutoff_time := k_T kline - 2 * 60 * 1000 in
  trades_buffer self' =
    List.filter (fun trade => cutoff_time <? timestamp trade) (trades_buffer self) /\
  (forall trade, In trade (trades_buffer self') <->
     In trade (trades_buffer self) /\ cutoff_time < timestamp trade) /\
  (forall second key, cutoff_time / 1000 <= second ->
     tally_of (second_trade_counts self') second key =
       tally_of (second_trade_counts self) second key).
Proof.
  intros Hd H cutoff_time.
  destruct (process_inv _ _ _ _ _ Hd H) as [(_ & Hr & _)|(_ & -> & _)];
    [discriminate|].
  cbn [after_close trades_buffer second_trade_counts].
  change (cutoff_of kline) with cutoff_time.
  split; [reflexivity|]. split.
  - intros trade. rewrite filter_In, Z.ltb_lt. tauto.
  - intros second key Hs. unfold tally_of at 1. rewrite evict_lookup.
    destruct (decide _) as [Hlt|_]; [lia|].
    apply (tally_of_fold_touch (seconds_of kline)).
Qed.

(** X6. The tallies a closed bucket leaves: nothing before the cutoff
    second; from there on the entries that were there, and an entry with two
    zero counts for every second of the bucket that had none. *)
Theorem close_tallies self kline candle self' second :
  counts_ok (second_trade_counts self) ->
  process_minute_candle py_float self kline = Ok (Some candle, self') ->
  second_trade_counts self' !! second =
    if decide (second < (k_T kline - 2 * 60 * 1000) / 1000) then None
    else match second_trade_counts self !! second with
         | Some c => Some c
         | None =>
             if decide (k_t kline / 1000 <= second <= k_T kline / 1000)
             then Some default_factory else None
         end.
Proof.
  intros Hd H.
  destruct (process_inv _ _ _ _ _ Hd H) as [(_ & Hr & _)|(_ & -> & _)];
    [discriminate|].
  cbn [after_close second_trade_counts]. rewrite evict_lookup.
  change (cutoff_of kline) with (k_T kline - 2 * 60 * 1000).
  destruct (decide _); [reflexivity|].
  rewrite fold_touch_lookup.
  destruct (second_trade_counts self !! second); [reflexivity|].
  unfold seconds_of.
  destruct (decide (second ∈ _)) as [Hin|Hin];
    destruct (decide (_ <= second <= _)) as [Hr|Hr]; try reflexivity;
    exfalso; rewrite elem_of_py_range in Hin; lia.
Qed.

(** X7. A closed bucket one of whose OHLCV strings is not a number raises
    [ValueError]: no candle is returned. *)
Theorem bad_number_raises self kline :
  default false (k_x kline) = true ->
  counts_ok (second_trade_counts self) ->
  ~ kline_ok py_float kline ->
  process_minute_candle py_float self kline = Raise ValueError.
Proof.
  intros Hx Hd Hbad. unfold process_minute_candle, float_of_str.
  rewrite Hx, max_per_second_ok by assumption. cbn [negb bind].
  destruct (py_float (k_o kline)) as [o|] eqn:Ho; cbn [bind];
    [|destruct (minute_trades _ _ _); reflexivity].
  destruct (py_float (k_h kline)) as [h|] eqn:Hh; cbn [bind];
    [|destruct (minute_trades _ _ _); reflexivity].
  destruct (py_float (k_l kline)) as [l|] eqn:Hl; cbn [bind];
    [|destruct (minute_trades _ _ _); reflexivity].
  destruct (py_float (k_c kline)) as [c|] eqn:Hc; cbn [bind];
    [|destruct (minute_trades _ _ _); reflexivity].
  destruct (py_float (k_v kline)) as [v|] eqn:Hv; cbn [bind];
    [|destruct (minute_trades _ _ _); reflexivity].
  exfalso. apply Hbad. unfold kline_ok. rewrite Ho, Hh, Hl, Hc, Hv.
  repeat split; eexists; reflexivity.
Qed.

End Retention.

Section Frame.

Variable py_float : string -> option float.

Lemma candle_of_add_trade o h l c v self trade self' kline :
  counts_ok (second_trade_counts self) ->
  add_trade self trade = Ok self' ->
  (timestamp trade < k_t kline \/ k_T kline < timestamp trade) ->
  let c0 := candle_of o h l c v self kline in
  let c1 := candle_of o h l c v self' kline in
  num_buyers c1 = num_buyers c0 /\ num_sellers c1 = num_sellers c0 /\
  buyers_volume c1 = buyers_volume c0 /\ sellers_volume c1 = sellers_volume c0 /\
  power_position c1 = power_position c0.
Proof.
  intros Hd H Hout c0 c1.
  destruct (add_trade_tally _ _ _ Hd H) as [Hb _].
  assert (minute_trades (trades_buffer self') (k_t kline) (k_T kline) =
          minute_trades (trades_buffer self) (k_t kline) (k_T kline)) as Ht.
  { rewrite Hb. unfold minute_trades. rewrite List.filter_app. cbn [List.filter].
    destruct (Z.leb_spec (k_t kline) (timestamp trade));
      destruct (Z.leb_spec (timestamp trade) (k_T kline)); cbn [andb];
      try apply app_nil_r. lia. }
  unfold c0, c1, candle_of.
  cbn [num_buyers num_sellers buyers_volume sellers_volume power_position].
  rewrite Ht. repeat split; reflexivity.
Qed.

(** X8. A trade whose second lies outside the seconds of a bucket does not
    change the candle of that bucket: the candle is the same whether the
    trade was added before the close or not. *)
Theorem candle_ignores_other_seconds self trade kline :
  default false (k_x kline) = true ->
  counts_ok (second_trade_counts self) ->
  kline_ok py_float kline ->
  (timestamp trade / 1000 < k_t kline / 1000 \/
   k_T kline / 1000 < timestamp trade / 1000) ->
  exists self1 candle self' self1',
    add_trade self trade = Ok self1 /\
    process_minute_candle py_float self kline = Ok (Some candle, self') /\
    process_minute_candle py_float self1 kline = Ok (Some candle, self1').
Proof.
  intros Hx Hd ([o Ho] & [h Hh] & [l Hl] & [c Hc] & [v Hv]) Hout.
  destruct (add_trade self trade) as [self1|] eqn:E.
  2:{ rewrite add_trade_ok in E by assumption. discriminate. }
  pose proof (add_trade_counts_ok _ _ _ Hd E) as Hd1.
  exists self1, (candle_of o h l c v self kline), (after_close self kline),
    (after_close self1 kline).
  split; [reflexivity|]. split; [apply process_closed; assumption|].
  rewrite (process_closed py_float self1 kline o h l c v) by assumption.
  do 3 f_equal.
  assert (timestamp trade < k_t kline \/ k_T kline < timestamp trade) as Hms.
  { destruct Hout as [Hlt|Hgt].
    - left. destruct (Z.lt_ge_cases (timestamp trade) (k_t kline)) as [|Hge];
        [assumption|].
      assert (k_t kline / 1000 <= timestamp trade / 1000)
        by (apply Z.div_le_mono; lia). lia.
    - right. destruct (Z.lt_ge_cases (k_T kline) (timestamp trade)) as [|Hge];
        [assumption|].
      assert (timestamp trade / 1000 <= k_T kline / 1000)
        by (apply Z.div_le_mono; lia). lia. }
  destruct (candle_of_add_trade o h l c v _ _ _ kline Hd E Hms)
    as (Hnb & Hns & Hbv & Hsv & Hpp).
  destruct (add_trade_tally _ _ _ Hd E) as [_ Ht].
  assert (forall key,
    max_of (second_trade_counts self1) key (seconds_of kline) 0 =
    max_of (second_trade_counts self) key (seconds_of kline) 0) as Hmax.
  { intros key. apply max_of_ext. intros k Hk. rewrite Ht.
    unfold tallied_at. apply elem_of_py_range in Hk.
    destruct (Z.eqb_spec (timestamp trade / 1000) k); [lia|]. cbn [andb]. lia. }
  unfold candle_of in *.
  cbn [num_buyers num_sellers buyers_volume sellers_volume power_position] in *.
  rewrite Hnb, Hns, Hbv, Hsv, !Hmax. reflexivity.
Qed.

(** X9. The maxima count whole seconds: a trade after [close_time] but in
    the second of [close_time] is not in the counts and volumes of the
    candle, yet the maximum of its side is at least one more than that
    second counted before. *)
Theorem closing_second_counts self trade kline :
  default false (k_x kline) = true ->
  counts_ok (second_trade_counts self) ->
  kline_ok py_float kline ->
  k_t kline <= k_T kline < timestamp trade ->
  timestamp trade / 1000 = k_T kline / 1000 ->
  exists self1 candle0 self0' candle1 self1',
    add_trade self trade = Ok self1 /\
    process_minute_candle py_float self kline = Ok (Some candle0, self0') /\
    process_minute_candle py_float self1 kline = Ok (Some candle1, self1') /\
    num_buyers candle1 = num_buyers candle0 /\
    num_sellers candle1 = num_sellers candle0 /\
    buyers_volume candle1 = buyers_volume candle0 /\
    sellers_volume candle1 = sellers_volume candle0 /\
    tally_of (second_trade_counts self) (k_T kline / 1000) (side_key trade) + 1
      <= (if is_buyer_maker trade then max_sellers_per_second candle1
          else max_buyers_per_second candle1).
Proof.
  intros Hx Hd ([o Ho] & [h Hh] & [l Hl] & [c Hc] & [v Hv]) Hlate Hsec.
  destruct (add_trade self trade) as [self1|] eqn:E.
  2:{ rewrite add_trade_ok in E by assumption. discriminate. }
  pose proof (add_trade_counts_ok _ _ _ Hd E) as Hd1.
  exists self1, (candle_of o h l c v self kline), (after_close self kline),
    (candle_of o h l c v self1 kline), (after_close self1 kline).
  split; [reflexivity|]. split; [apply process_closed; assumption|].
  split; [apply process_closed; assumption|].
  destruct (candle_of_add_trade o h l c v _ _ _ kline Hd E)
    as (Hnb & Hns & Hbv & Hsv & _); [right; lia|].
  split; [exact Hnb|]. split; [exact Hns|]. split; [exact Hbv|].
  split; [exact Hsv|].
  destruct (add_trade_tally _ _ _ Hd E) as [_ Ht].
  assert (tally_of (second_trade_counts self) (k_T kline / 1000) (side_key trade)
          + 1 <= max_of (second_trade_counts self1) (side_key trade)
                   (seconds_of kline) 0) as Hmax.
  { destruct (max_of_spec (second_trade_counts self1) (side_key trade)
                (seconds_of kline) 0) as (_ & Hall & _).
    specialize (Hall (k_T kline / 1000)).
    rewrite Ht in Hall. unfold tallied_at in Hall.
    rewrite Hsec, Z.eqb_refl, String.eqb_refl in Hall. cbn [andb] in Hall.
    apply Hall. apply elem_of_py_range.
    assert (k_t kline / 1000 <= k_T kline / 1000)
      by (apply Z.div_le_mono; lia). lia. }
  unfold candle_of. cbn [max_buyers_per_second max_sellers_per_second].
  unfold side_key in *. destruct (is_buyer_maker trade); exact Hmax.
Qed.

End Frame.

(** ** Reconnecting *)

Lemma handle_reconnection_running config self :
  running self = true ->
  reconnect_attempts self + 1 <= max_reconnect_attempts config ->
  handle_reconnection config self =
    ({| running := true; reconnect_attempts := reconnect_attempts self + 1 |},
     Some (Z.min (reconnect_interval config * 2 ^ reconnect_attempts self) 300)).
Proof.
  intros Hr Hle. unfold handle_reconnection. rewrite Hr. cbn [negb].
  destruct (Z.ltb_spec (max_reconnect_attempts config)
              (reconnect_attempts self + 1)); [lia|].
  replace (reconnect_attempts self + 1 - 1) with (reconnect_attempts self)
    by lia.
  reflexivity.
Qed.

Lemma handle_reconnection_gives_up config self :
  running self = true ->
  max_reconnect_attempts config < reconnect_attempts self + 1 ->
  handle_reconnection config self =
    ({| running := false; reconnect_attempts := reconnect_attempts self + 1 |},
     None).
Proof.
  intros Hr Hlt. unfold handle_reconnection. rewrite Hr. cbn [negb].
  destruct (Z.ltb_spec (max_reconnect_attempts config)
              (reconnect_attempts self + 1)); [reflexivity|lia].
Qed.

Lemma websocket_handler_stopped config turns self :
  running self = false -> websocket_handler config turns self = (self, []).
Proof. intros Hr. destruct turns; cbn; [reflexivity|]. rewrite Hr. reflexivity. Qed.

(** The refusals in a row that are still slept after, from [a] failed
    attempts on. *)
Lemma refused_in_a_row config n : forall a,
  0 <= a ->
  a + Z.of_nat n <= max_reconnect_attempts config ->
  websocket_handler config (repeat Refused n)
    {| running := true; reconnect_attempts := a |} =
  ({| running := true; reconnect_attempts := a + Z.of_nat n |},
   map (fun i => Z.min (reconnect_interval config * 2 ^ (a + Z.of_nat i)) 300)
     (seq 0 n)).
Proof.
  induction n as [|n IH]; intros a Ha Hle.
  - cbn. do 2 f_equal. lia.
  - cbn [repeat websocket_handler running negb].
    rewrite handle_reconnection_running by (cbn; lia).
    cbn [reconnect_attempts]. rewrite IH by lia.
    f_equal; [f_equal; lia|].
    cbn [seq map]. f_equal; [do 3 f_equal; lia|].
    rewrite <- seq_shift, map_map. apply map_ext. intros i.
    do 3 f_equal. lia.
Qed.

Lemma websocket_handler_app config l1 : forall l2 self,
  websocket_handler config (l1 ++ l2) self =
    let '(mid, s1) := websocket_handler config l1 self in
    let '(final, s2) := websocket_handler config l2 mid in
    (final, s1 ++ s2).
Proof.
  induction l1 as [|turn l1 IH]; intros l2 self.
  - cbn [app websocket_handler].
    destruct (websocket_handler config l2 self). reflexivity.
  - cbn [app websocket_handler].
    destruct (running self) eqn:Hr; cbn [negb].
    + destruct turn.
      * destruct (handle_reconnection config self) as [after slept].
        rewrite IH.
        destruct (websocket_handler config l1 after) as [mid s1].
        destruct (websocket_handler config l2 mid) as [final s2].
        destruct slept; reflexivity.
      * destruct (handle_reconnection config _) as [after slept].
        rewrite IH.
        destruct (websocket_handler config l1 after) as [mid s1].
        destruct (websocket_handler config l2 mid) as [final s2].
        destruct slept; reflexivity.
      * apply IH.
    + rewrite websocket_handler_stopped by assumption. reflexivity.
Qed.

(** X10. When every connection is refused, the collector sleeps
    [min(reconnect_interval * 2 ** i, 300)] seconds after the refusal number
    [i + 1], for the first [max_reconnect_attempts] refusals; the next
    refusal stops it without a sleep. *)
Theorem refused_until_given_up config n :
  0 <= max_reconnect_attempts config ->
  let schedule k :=
    map (fun i => Z.min (reconnect_interval config * 2 ^ Z.of_nat i) 300)
      (seq 0 k) in
  websocket_handler config (repeat Refused n) started =
    if Z.of_nat n <=? max_reconnect_attempts config
    then ({| running := true; reconnect_attempts := Z.of_nat n |}, schedule n)
    else ({| running := false;
             reconnect_attempts := max_reconnect_attempts config + 1 |},
          schedule (Z.to_nat (max_reconnect_attempts config))).
Proof.
  intros Hmax schedule. unfold started.
  destruct (Z.leb_spec (Z.of_nat n) (max_reconnect_attempts config)) as [Hle|Hgt].
  - rewrite refused_in_a_row by lia. reflexivity.
  - set (m := Z.to_nat (max_reconnect_attempts config)).
    assert (n = (m + S (n - S m))%nat) as -> by lia.
    rewrite repeat_app.
    rewrite websocket_handler_app, refused_in_a_row by lia.
    cbn [repeat websocket_handler running negb].
    rewrite handle_reconnection_gives_up by (cbn; lia).
    rewrite websocket_handler_stopped by reflexivity.
    cbn [reconnect_attempts]. rewrite app_nil_r.
    replace (0 + Z.of_nat m + 1) with (max_reconnect_attempts config + 1)
      by lia.
    reflexivity.
Qed.

(** X11. Along any turns of the loop, started fresh: every sleep is at most
    300 seconds and, for an interval that is not negative, at least
    [min(reconnect_interval, 300)]; there are no more sleeps than turns; the
    count of failed attempts stays between 0 and
    [max_reconnect_attempts + 1], and is at most [max_reconnect_attempts]
    while the collector runs. *)
Theorem backoff_bounds config turns :
  0 <= max_reconnect_attempts config ->
  let '(final, sleeps) := websocket_handler config turns started in
  (forall w, In w sleeps ->
     w <= 300 /\
     (0 <= reconnect_interval config ->
      Z.min (reconnect_interval config) 300 <= w)) /\
  (length sleeps <= length turns)%nat /\
  0 <= reconnect_attempts final <= max_reconnect_attempts config + 1 /\
  (running final = true ->
   reconnect_attempts final <= max_reconnect_attempts config).
Proof.
  intros Hmax.
  assert (forall self,
    0 <= reconnect_attempts self <= max_reconnect_attempts config + 1 ->
    (running self = true ->
     reconnect_attempts self <= max_reconnect_attempts config) ->
    let '(final, sleeps) := websocket_handler config turns self in
    (forall w, In w sleeps ->
       w <= 300 /\
       (0 <= reconnect_interval config ->
        Z.min (reconnect_interval config) 300 <= w)) /\
    (length sleeps <= length turns)%nat /\
    0 <= reconnect_attempts final <= max_reconnect_attempts config + 1 /\
    (running final = true ->
     reconnect_attempts final <= max_reconnect_attempts config)) as Hgen.
  { induction turns as [|turn turns IH]; intros self Ha Hr.
    - cbn. split; [contradiction|]. split; [lia|]. split; assumption.
    - cbn [websocket_handler]. destruct (running self) eqn:Hrun; cbn [negb].
      2:{ split; [contradiction|]. split; [cbn; lia|].
          split; [exact Ha|intros Hf; congruence]. }
      specialize (Hr eq_refl).
      assert (forall before,
        running before = true ->
        0 <= reconnect_attempts before <= max_reconnect_attempts config ->
        let '(after, slept) := handle_reconnection config before in
        let '(final, sleeps) := websocket_handler config turns after in
        (forall w,
           In w (match slept with Some w0 => w0 :: sleeps | None => sleeps end) ->
           w <= 300 /\
           (0 <= reconnect_interval config ->
            Z.min (reconnect_interval config) 300 <= w)) /\
        (length (match slept with Some w0 => w0 :: sleeps | None => sleeps end)
           <= S (length turns))%nat /\
        0 <= reconnect_attempts final <= max_reconnect_attempts config + 1 /\
        (running final = true ->
         reconnect_attempts final <= max_reconnect_attempts config)) as Hstep.
      { intros before Hb Hab.
        destruct (Z.le_gt_cases (reconnect_attempts before + 1)
                    (max_reconnect_attempts config)) as [Hle|Hgt].
        - rewrite handle_reconnection_running by assumption.
          specialize (IH {| running := true;
                            reconnect_attempts := reconnect_attempts before + 1 |}).
          cbn [running reconnect_attempts] in IH.
          destruct (websocket_handler config turns _) as [final sleeps].
          destruct IH as (Hw & Hlen & Hfa & Hfr); [lia|intros _; lia|].
          split; [|split; [cbn [length]; lia|split; assumption]].
          intros w [<-|Hin]; [|apply Hw, Hin].
          split; [lia|]. intros Hi.
          assert (0 < 2 ^ reconnect_attempts before)
            by (apply Z.pow_pos_nonneg; lia).
          nia.
        - rewrite handle_reconnection_gives_up by (assumption || lia).
          rewrite websocket_handler_stopped by reflexivity.
          cbn [reconnect_attempts running].
          split; [contradiction|]. split; [cbn; lia|].
          split; [lia|discriminate]. }
      destruct turn.
      + specialize (Hstep self Hrun).
        destruct (handle_reconnection config self) as [after slept].
        destruct (websocket_handler config turns after) as [final sleeps].
        apply Hstep. lia.
      + specialize (Hstep {| running := true; reconnect_attempts := 0 |} eq_refl).
        cbn [reconnect_attempts] in Hstep.
        destruct (handle_reconnection config _) as [after slept].
        destruct (websocket_handler config turns after) as [final sleeps].
        apply Hstep. lia.
      + specialize (IH {| running := true; reconnect_attempts := 0 |}).
        cbn [running reconnect_attempts] in IH.
        destruct (websocket_handler config turns _) as [final sleeps].
        destruct IH as (Hw & Hlen & Hfa & Hfr); [lia|intros _; lia|].
        split; [exact Hw|]. split; [cbn [length]; lia|]. split; assumption. }
  apply Hgen; unfold started; cbn; [lia|intros _; lia].
Qed.

(** X12. A connection that was established and then lost starts the
    backoff over: after any number of refusals that were slept after, the
    sleep that follows the loss is [min(reconnect_interval, 300)] and one
    failed attempt is counted. *)
Theorem lost_connection_restarts config n :
  Z.of_nat n <= max_reconnect_attempts config ->
  1 <= max_reconnect_attempts config ->
  websocket_handler config (repeat Refused n ++ [Lost]) started =
    ({| running := true; reconnect_attempts := 1 |},
     map (fun i => Z.min (reconnect_interval config * 2 ^ Z.of_nat i) 300)
       (seq 0 n) ++ [Z.min (reconnect_interval config) 300]).
Proof.
  intros Hn Hmax. rewrite websocket_handler_app. unfold started.
  rewrite refused_in_a_row by lia.
  cbn [websocket_handler running negb].
  rewrite handle_reconnection_running by (cbn; lia).
  cbn [reconnect_attempts]. do 3 f_equal.
  rewrite Z.pow_0_r, Z.mul_1_r. reflexivity.
Qed.

(** ** Maxima and counts of a bucket of whole seconds *)

Lemma filter_length_le_imp {A : Type} (f g : A -> bool) (l : list A) :
  (forall x, In x l -> f x = true -> g x = true) ->
  (length (List.filter f l) <= length (List.filter g l))%nat.
Proof.
  induction l as [|x l IH]; intros H; cbn [List.filter]; [reflexivity|].
  assert (length (List.filter f l) <= length (List.filter g l))%nat as Hl
    by (apply IH; intros y Hy; apply H; right; exact Hy).
  destruct (f x) eqn:Ef.
  - rewrite (H x (or_introl eq_refl) Ef). cbn [length]. lia.
  - destruct (g x); cbn [length]; lia.
Qed.

Lemma filter_filter_and {A : Type} (f g : A -> bool) (l : list A) :
  List.filter f (List.filter g l) = List.filter (fun x => g x && f x) l.
Proof.
  induction l as [|x l IH]; [reflexivity|]. cbn [List.filter].
  destruct (g x); cbn [List.filter andb]; [|exact IH].
  rewrite IH. reflexivity.
Qed.

Lemma for_each_add_trade_counts_ok l : forall self self',
  counts_ok (second_trade_counts self) ->
  for_each add_trade l self = Ok self' ->
  counts_ok (second_trade_counts self').
Proof.
  induction l as [|trade l IH]; intros self self' Hd Hrun;
    cbn [for_each] in Hrun.
  - injection Hrun as <-. exact Hd.
  - destruct (add_trade self trade) as [s1|] eqn:E; [|discriminate].
    apply (IH s1); [eapply add_trade_counts_ok; eassumption|exact Hrun].
Qed.

Section WholeSeconds.

Variable py_float : string -> option float.

(** X13. On a processor that has only recorded trades, the candle of a
    closed bucket of whole seconds ([open_time] at the start of a second,
    [close_time] at the last millisecond of one) has maxima within its
    counts: no second counts more buyers (sellers) than the bucket, and the
    maximum is positive exactly when the count is. *)
Theorem maxima_within_counts l kline :
  default false (k_x kline) = true ->
  kline_ok py_float kline ->
  k_t kline mod 1000 = 0 ->
  (k_T kline + 1) mod 1000 = 0 ->
  exists self candle self',
    for_each add_trade l init = Ok self /\
    process_minute_candle py_float self kline = Ok (Some candle, self') /\
    max_buyers_per_second candle <= num_buyers candle /\
    max_sellers_per_second candle <= num_sellers candle /\
    (0 < num_buyers candle <-> 0 < max_buyers_per_second candle) /\
    (0 < num_sellers candle <-> 0 < max_sellers_per_second candle).
Proof.
  intros Hx ([o Ho] & [h Hh] & [lo Hl] & [c Hc] & [v Hv]) Hopen Hclose.
  destruct (for_each_add_trade l init counts_ok_empty) as (self & Hrun & Hb & Ht).
  cbn [init trades_buffer app] in Hb.
  pose proof (for_each_add_trade_counts_ok l init self counts_ok_empty Hrun)
    as Hd.
  exists self, (candle_of o h lo c v self kline), (after_close self kline).
  split; [exact Hrun|]. split; [apply process_closed; assumption|].
  assert (Htally : forall second key,
            tally_of (second_trade_counts self) second key = count_in l second key).
  { intros second key. rewrite Ht.
    rewrite (tally_of_absent (second_trade_counts init))
      by apply lookup_empty.
    lia. }
  assert (Hside : forall (cond : TradeData -> bool) key,
    (forall trade, cond trade = true <-> side_key trade = key) ->
    let n := count_if cond (minute_trades l (k_t kline) (k_T kline)) in
    let m := max_of (second_trade_counts self) key (seconds_of kline) 0 in
    m <= n /\ (0 < n <-> 0 < m)).
  { intros cond key Hcond n m.
    assert (Hn : n = Z.of_nat (length (List.filter
                     (fun trade => ((k_t kline <=? timestamp trade)
                                    && (timestamp trade <=? k_T kline))
                                   && cond trade) l))).
    { unfold n, minute_trades. rewrite count_if_length, filter_filter_and.
      reflexivity. }
    assert (Hin : forall second trade,
              k_t kline / 1000 <= second <= k_T kline / 1000 ->
              timestamp trade / 1000 = second ->
              k_t kline <= timestamp trade <= k_T kline).
    { intros second trade Hs Hsec.
      pose proof (Z.div_mod (k_t kline) 1000 ltac:(lia)).
      pose proof (Z.div_mod (k_T kline + 1) 1000 ltac:(lia)).
      pose proof (Z.div_mod (timestamp trade) 1000 ltac:(lia)).
      pose proof (Z.mod_pos_bound (timestamp trade) 1000 ltac:(lia)).
      assert ((k_T kline + 1) / 1000 = k_T kline / 1000 + 1).
      { pose proof (Z.div_mod (k_T kline) 1000 ltac:(lia)).
        pose proof (Z.mod_pos_bound (k_T kline) 1000 ltac:(lia)).
        lia. }
      lia. }
    assert (Hle : forall second,
              k_t kline / 1000 <= second <= k_T kline / 1000 ->
              tally_of (second_trade_counts self) second key <= n).
    { intros second Hs. rewrite Htally, Hn. unfold count_in. apply inj_le.
      apply filter_length_le_imp. intros trade _ Htr.
      unfold tallied_at in Htr. apply andb_true_iff in Htr as [Hsec Hkey].
      apply Z.eqb_eq in Hsec. apply String.eqb_eq in Hkey.
      destruct (Hin second trade Hs Hsec) as [H1 H2].
      apply andb_true_iff. split; [|apply Hcond, Hkey].
      apply andb_true_iff. split; apply Z.leb_le; assumption. }
    destruct (max_of_spec (second_trade_counts self) key (seconds_of kline) 0)
      as (Hge & Hall & Hex). fold m in Hge, Hall, Hex.
    assert (Hmn : m <= n).
    { destruct Hex as [->|(k & Hk & ->)]; [rewrite Hn; lia|].
      apply Hle. apply elem_of_py_range in Hk. lia. }
    split; [exact Hmn|]. split; [|lia].
    intros Hpos. rewrite Hn in Hpos.
    destruct (List.filter _ l) as [|trade rest] eqn:Ef; [cbn in Hpos; lia|].
    assert (In trade (List.filter
              (fun trade => ((k_t kline <=? timestamp trade)
                             && (timestamp trade <=? k_T kline))
                            && cond trade) l)) as Hin'
      by (rewrite Ef; left; reflexivity).
    apply filter_In in Hin' as [Hl' Hp].
    apply andb_true_iff in Hp as [Hrange Hc'].
    apply andb_true_iff in Hrange as [H1 H2]. apply Z.leb_le in H1, H2.
    assert (k_t kline / 1000 <= timestamp trade / 1000 <= k_T kline / 1000)
      as Hs by (split; apply Z.div_le_mono; lia).
    assert (1 <= tally_of (second_trade_counts self)
                   (timestamp trade / 1000) key) as H1t.
    { rewrite Htally. unfold count_in.
      assert (In trade (List.filter (tallied_at (timestamp trade / 1000) key) l))
        as Hi.
      { apply filter_In. split; [exact Hl'|]. unfold tallied_at.
        rewrite Z.eqb_refl. cbn [andb]. apply String.eqb_eq, Hcond, Hc'. }
      destruct (List.filter (tallied_at _ key) l); [contradiction|].
      cbn [length]. lia. }
    assert (tally_of (second_trade_counts self) (timestamp trade / 1000) key <= m).
    { apply Hall. apply elem_of_py_range. lia. }
    lia. }
  destruct (Hside is_buy "buyers") as [Hb1 Hb2].
  { intros trade. unfold is_buy, side_key.
    destruct (is_buyer_maker trade); cbn; split; congruence. }
  destruct (Hside is_sell "sellers") as [Hs1 Hs2].
  { intros trade. unfold is_sell, side_key.
    destruct (is_buyer_maker trade); cbn; split; congruence. }
  unfold candle_of.
  cbn [num_buyers num_sellers max_buyers_per_second max_sellers_per_second].
  rewrite Hb. repeat split; tauto || assumption.
Qed.

End WholeSeconds.

(** ** The further theorems at the sample inputs *)

Lemma add_trades_count_witness :
  counts_ok (second_trade_counts init) /\
  Permutation sample_trades (rev sample_trades) /\
  exists s s',
    for_each add_trade sample_trades init = Ok s /\
    for_each add_trade (rev sample_trades) init = Ok s' /\
    forall second key,
      tally_of (second_trade_counts s') second key =
        tally_of (second_trade_counts s) second key.
Proof.
  split; [exact counts_ok_empty|]. split; [apply Permutation_rev|].
  destruct (add_trades_count sample_trades (rev sample_trades) init
              counts_ok_empty (Permutation_rev _))
    as (s & s' & Hs & Hs' & _ & _ & Ht).
  exists s, s'. split; [exact Hs|]. split; [exact Hs'|].
  intros second key. apply Ht.
Defined.

Lemma tallies_cover_buffer_witness :
  reachable py_float_sample sample_processor /\
  count_in (trades_buffer sample_processor) 1 "buyers" <=
    tally_of (second_trade_counts sample_processor) 1 "buyers".
Proof.
  split; [exact sample_reachable|].
  exact (tallies_cover_buffer py_float_sample sample_processor
           sample_reachable 1 "buyers").
Defined.

Lemma maxima_attained_witness :
  counts_ok (second_trade_counts sample_processor) /\
  process_minute_candle py_float_sample sample_processor
    (sample_kline true 0 3000) = Ok (Some sample_candle, sample_after) /\
  largest_count (second_trade_counts sample_processor) "buyers" 0 3
    (max_buyers_per_second sample_candle).
Proof.
  split; [exact sample_counts_ok|]. split; [exact sample_process|].
  exact (proj1 (maxima_attained py_float_sample sample_processor
                  (sample_kline true 0 3000) sample_candle sample_after
                  sample_counts_ok sample_process)).
Defined.

Lemma close_again_witness :
  counts_ok (second_trade_counts sample_processor) /\
  k_T (sample_kline true 0 3000) - 2 * 60 * 1000 < k_t (sample_kline true 0 3000) /\
  process_minute_candle py_float_sample sample_processor
    (sample_kline true 0 3000) = Ok (Some sample_candle, sample_after) /\
  process_minute_candle py_float_sample sample_after
    (sample_kline true 0 3000) = Ok (Some sample_candle, sample_after).
Proof.
  assert (k_T (sample_kline true 0 3000) - 2 * 60 * 1000
          < k_t (sample_kline true 0 3000)) as Hshort by (cbn; lia).
  split; [exact sample_counts_ok|]. split; [exact Hshort|].
  split; [exact sample_process|].
  exact (close_again py_float_sample sample_processor (sample_kline true 0 3000)
           sample_candle sample_after sample_counts_ok Hshort sample_process).
Defined.

Lemma close_keeps_recent_witness :
  counts_ok (second_trade_counts sample_processor) /\
  process_minute_candle py_float_sample sample_processor
    (sample_kline true 0 3000) = Ok (Some sample_candle, sample_after) /\
  forall trade, In trade (trades_buffer sample_after) <->
    In trade (trades_buffer sample_processor) /\
    3000 - 2 * 60 * 1000 < timestamp trade.
Proof.
  split; [exact sample_counts_ok|]. split; [exact sample_process|].
  exact (proj1 (proj2 (close_keeps_recent py_float_sample sample_processor
                         (sample_kline true 0 3000) sample_candle sample_after
                         sample_counts_ok sample_process))).
Defined.

Lemma close_tallies_witness :
  counts_ok (second_trade_counts sample_processor) /\
  process_minute_candle py_float_sample sample_processor
    (sample_kline true 0 3000) = Ok (Some sample_candle, sample_after) /\
  second_trade_counts sample_after !! 0 = Some default_factory.
Proof.
  split; [exact sample_counts_ok|]. split; [exact sample_process|].
  rewrite (close_tallies py_float_sample sample_processor
             (sample_kline true 0 3000) sample_candle sample_after 0
             sample_counts_ok sample_process).
  vm_compute. reflexivity.
Defined.

Lemma bad_number_raises_witness :
  let kline := {| k_x := Some true; k_t := 0; k_T := 3000;
                  k_o := "1.0"; k_h := "2.5"; k_l := "n/a"; k_c := "1.0";
                  k_v := "2.5" |} in
  default false (k_x kline) = true /\
  counts_ok (second_trade_counts sample_processor) /\
  ~ kline_ok py_float_sample kline /\
  process_minute_candle py_float_sample sample_processor kline =
    Raise ValueError.
Proof.
  intros kline.
  assert (~ kline_ok py_float_sample kline) as Hbad.
  { intros (_ & _ & [x Hx] & _). vm_compute in Hx. discriminate. }
  split; [reflexivity|]. split; [exact sample_counts_ok|].
  split; [exact Hbad|].
  exact (bad_number_raises py_float_sample sample_processor kline eq_refl
           sample_counts_ok Hbad).
Defined.

Lemma candle_ignores_other_seconds_witness :
  let trade := mkTradeData 5000 0x1p+0%float f_0_2 true 4 in
  default false (k_x (sample_kline true 0 3000)) = true /\
  counts_ok (second_trade_counts sample_processor) /\
  kline_ok py_float_sample (sample_kline true 0 3000) /\
  (timestamp trade / 1000 < k_t (sample_kline true 0 3000) / 1000 \/
   k_T (sample_kline true 0 3000) / 1000 < timestamp trade / 1000) /\
  exists self1 candle self' self1',
    add_trade sample_processor trade = Ok self1 /\
    process_minute_candle py_float_sample sample_processor
      (sample_kline true 0 3000) = Ok (Some candle, self') /\
    process_minute_candle py_float_sample self1
      (sample_kline true 0 3000) = Ok (Some candle, self1').
Proof.
  intros trade.
  assert (timestamp trade / 1000 < k_t (sample_kline true 0 3000) / 1000 \/
          k_T (sample_kline true 0 3000) / 1000 < timestamp trade / 1000)
    as Hout by (right; vm_compute; reflexivity).
  split; [reflexivity|]. split; [exact sample_counts_ok|].
  split; [apply sample_kline_ok|]. split; [exact Hout|].
  exact (candle_ignores_other_seconds py_float_sample sample_processor trade
           (sample_kline true 0 3000) eq_refl sample_counts_ok
           (sample_kline_ok true 0 3000) Hout).
Defined.

Lemma closing_second_counts_witness :
  let trade := mkTradeData 3500 0x1p+0%float f_0_2 false 4 in
  default false (k_x (sample_kline true 0 3000)) = true /\
  counts_ok (second_trade_counts init) /\
  kline_ok py_float_sample (sample_kline true 0 3000) /\
  k_t (sample_kline true 0 3000) <= k_T (sample_kline true 0 3000)
    < timestamp trade /\
  timestamp trade / 1000 = k_T (sample_kline true 0 3000) / 1000 /\
  exists self1 candle1 self1',
    add_trade init trade = Ok self1 /\
    process_minute_candle py_float_sample self1 (sample_kline true 0 3000) =
      Ok (Some candle1, self1') /\
    num_buyers candle1 = 0 /\
    1 <= max_buyers_per_second candle1.
Proof.
  intros trade.
  assert (k_t (sample_kline true 0 3000) <= k_T (sample_kline true 0 3000)
          < timestamp trade) as Hlate by (cbn; lia).
  split; [reflexivity|]. split; [exact counts_ok_empty|].
  split; [apply sample_kline_ok|]. split; [exact Hlate|].
  split; [reflexivity|].
  destruct (closing_second_counts py_float_sample init trade
              (sample_kline true 0 3000) eq_refl counts_ok_empty
              (sample_kline_ok true 0 3000) Hlate eq_refl)
    as (self1 & c0 & s0' & c1 & s1' & Ha & H0 & H1 & Hnb & _ & _ & _ & Hmax).
  exists self1, c1, s1'. split; [exact Ha|]. split; [exact H1|].
  assert (process_minute_candle py_float_sample init (sample_kline true 0 3000)
          = Ok (Some (candle_of 0x1p+0%float 0x1.4p+1%float 0x1p-1%float
                        0x1p+0%float 0x1.4p+1%float init
                        (sample_kline true 0 3000)),
                after_close init (sample_kline true 0 3000))) as E
    by (vm_compute; reflexivity).
  rewrite E in H0. injection H0 as <- _.
  split; [rewrite Hnb; reflexivity|].
  cbn in Hmax. exact Hmax.
Defined.

Lemma refused_until_given_up_witness :
  0 <= max_reconnect_attempts CONFIG /\
  websocket_handler CONFIG (repeat Refused 12) started =
    ({| running := false; reconnect_attempts := 11 |},
     [5; 10; 20; 40; 80; 160; 300; 300; 300; 300]).
Proof.
  assert (0 <= max_reconnect_attempts CONFIG) as Hmax by (cbn; lia).
  split; [exact Hmax|].
  rewrite (refused_until_given_up CONFIG 12 Hmax). reflexivity.
Defined.

Lemma backoff_bounds_witness :
  0 <= max_reconnect_attempts CONFIG /\
  let '(final, sleeps) :=
    websocket_handler CONFIG [Refused; Lost; Ended; Refused] started in
  (forall w, In w sleeps ->
     w <= 300 /\
     (0 <= reconnect_interval CONFIG ->
      Z.min (reconnect_interval CONFIG) 300 <= w)) /\
  (length sleeps <= length [Refused; Lost; Ended; Refused])%nat /\
  0 <= reconnect_attempts final <= max_reconnect_attempts CONFIG + 1 /\
  (running final = true ->
   reconnect_attempts final <= max_reconnect_attempts CONFIG).
Proof.
  assert (0 <= max_reconnect_attempts CONFIG) as Hmax by (cbn; lia).
  split; [exact Hmax|].
  exact (backoff_bounds CONFIG [Refused; Lost; Ended; Refused] Hmax).
Defined.

Lemma lost_connection_restarts_witness :
  Z.of_nat 3 <= max_reconnect_attempts CONFIG /\
  1 <= max_reconnect_attempts CONFIG /\
  websocket_handler CONFIG [Refused; Refused; Refused; Lost] started =
    ({| running := true; reconnect_attempts := 1 |}, [5; 10; 20; 5]).
Proof.
  assert (Z.of_nat 3 <= max_reconnect_attempts CONFIG) as H3 by (cbn; lia).
  assert (1 <= max_reconnect_attempts CONFIG) as H1 by (cbn; lia).
  split; [exact H3|]. split; [exact H1|].
  exact (lost_connection_restarts CONFIG 3 H3 H1).
Defined.

Lemma maxima_within_counts_witness :
  default false (k_x (sample_kline true 0 59999)) = true /\
  kline_ok py_float_sample (sample_kline true 0 59999) /\
  k_t (sample_kline true 0 59999) mod 1000 = 0 /\
  (k_T (sample_kline true 0 59999) + 1) mod 1000 = 0 /\
  exists self candle self',
    for_each add_trade sample_trades init = Ok self /\
    process_minute_candle py_float_sample self (sample_kline true 0 59999) =
      Ok (Some candle, self') /\
    max_buyers_per_second candle <= num_buyers candle /\
    max_sellers_per_second candle <= num_sellers candle.
Proof.
  split; [reflexivity|]. split; [apply sample_kline_ok|].
  split; [reflexivity|]. split; [reflexivity|].
  destruct (maxima_within_counts py_float_sample sample_trades
              (sample_kline true 0 59999) eq_refl
              (sample_kline_ok true 0 59999) eq_refl eq_refl)
    as (self & candle & self' & Hrun & Hp & Hb & Hs & _).
  exists self, candle, self'. repeat split; assumption.
Defined.
